(** * causaltune / auto_causality: dataset loaders and the dataset preprocessor

    A shallow embedding of [auto_causality/datasets.py] (the three loaders
    [amazon_reviews], [synth_ihdp], [synth_acic] and [preprocess_dataset]),
    followed by a model of the tuning orchestrator and selector, whose code
    is not part of the sources at hand.

    Conventions.
    - A pandas frame is an ordered list of labelled columns; a column is a
      list of cells, and its dtype is the one pandas infers from them.
      Frames are rectangular, as pandas keeps them.
    - Integers are the 64-bit integers of NumPy where a column stores them
      and unbounded where Python holds them; a float is its exact value.
    - A Python exception is a value of [exn]; a call that may raise returns
      a [result].
    - [preprocess_dataset] writes to the frame object it is given, so it is
      a computation over that object: [frameM] threads the caller's frame.
    - Everything outside the file (the network, [gdown], [pd.read_csv],
      NumPy's random generator, [auto_causality.utils.featurize]) is a
      parameter of the function that uses it. *)

From Stdlib Require Import ZArith QArith String Ascii.
From stdpp Require Import base option list sets strings pretty.

Local Close Scope Q_scope.
Local Open Scope string_scope.
Local Open Scope list_scope.
Local Open Scope nat_scope.
#[local] Set Warnings "-clear-no-such-hyp".

(** ** Exceptions and results *)

Inductive exn : Type :=
  | AssertionError
  | KeyError (key : string)
  | IndexError
  | ValueError (msg : string)
  | OverflowError (msg : string)
  | UnboundLocalError (var : string)
  | ExternalError (msg : string)      (* raised inside an external library *)
  | InvalidTreatmentError             (* named by the specification *)
  | NoSuccessfulTrialError.           (* named by the specification *)

Inductive result (A : Type) : Type :=
  | Ok (a : A)
  | Err (e : exn).
Arguments Ok {A} a.
Arguments Err {A} e.

Global Instance result_ret : MRet result := λ A a, Ok a.
Global Instance result_bind : MBind result := λ A B f m,
  match m with Ok a => f a | Err e => Err e end.

Definition is_ok {A} (r : result A) : bool :=
  match r with Ok _ => true | Err _ => false end.

(** ** Cells, columns and frames *)

(** [CInt] is a Python or NumPy integer, [CFloat] a finite float (its exact
    rational value), [CNaN] a missing value (the float NaN), [CInf] an
    infinite float, [CStr] a string. *)
Inductive cell : Type :=
  | CInt (z : Z)
  | CFloat (q : Q)
  | CNaN
  | CInf
  | CStr (s : string).

Abbreviation DataFrame := (list (string * list cell)).

(** [df.columns] *)
Definition columns (df : DataFrame) : list string := df.*1.

(** [len(df)]: the length of the shared index. *)
Definition len (df : DataFrame) : nat :=
  match df with
  | [] => 0
  | (_, col) :: _ => length col
  end.

Definition rectangular (df : DataFrame) : Prop :=
  Forall (λ kc, length kc.2 = len df) df.

(** [df[key]] read: [KeyError] when no column carries the label.  The
    labels of a frame are taken to be distinct, as [pd.read_csv] makes them;
    among equal labels the first column answers. *)
Fixpoint getitem (df : DataFrame) (key : string) : result (list cell) :=
  match df with
  | [] => Err (KeyError key)
  | (k, col) :: df' => if decide (k = key) then Ok col else getitem df' key
  end.

(** [df[key] = value]: overwrite the column when the label exists (in place,
    the column keeps its position), append it as the last column otherwise. *)
Definition setitem (df : DataFrame) (key : string) (value : list cell) : DataFrame :=
  if decide (key ∈ columns df)
  then (λ kc : string * list cell, if decide (kc.1 = key) then (key, value) else kc) <$> df
  else (df ++ [(key, value)])%list.

(** [df.drop(columns=labels)] *)
Definition drop_columns (df : DataFrame) (labels : list string) : DataFrame :=
  filter (λ kc, kc.1 ∉ labels) df.

(** [df.columns = labels]: pandas raises [ValueError] on a length mismatch. *)
Definition set_columns (df : DataFrame) (labels : list string) : result DataFrame :=
  if decide (length labels = length df)
  then Ok (zip labels df.*2)
  else Err (ValueError "Length mismatch").

(** [df.rename(columns={old: new})] *)
Definition rename_column (old new : string) (df : DataFrame) : DataFrame :=
  (λ kc : string * list cell, if decide (kc.1 = old) then (new, kc.2) else kc) <$> df.

(** Python truthiness of a scalar, as [x if c else y] tests it. *)
Definition truthy (c : cell) : bool :=
  match c with
  | CInt z => negb (z =? 0)%Z
  | CFloat q => negb (Qnum q =? 0)%Z
  | CNaN | CInf => true
  | CStr s => negb (String.eqb s "")
  end.

(** *** [int(str)]: optional blanks, an optional sign, decimal digits with
    single underscores between them. *)

Definition is_space (a : ascii) : bool :=
  let n := nat_of_ascii a in
  ((9 <=? n) && (n <=? 13) || (n =? 32))%nat.

Definition digit_of (a : ascii) : option Z :=
  let n := nat_of_ascii a in
  if ((48 <=? n) && (n <=? 57))%nat then Some (Z.of_nat (n - 48)) else None.

Fixpoint lstrip (s : string) : string :=
  match s with
  | String a s' => if is_space a then lstrip s' else s
  | EmptyString => s
  end.

Fixpoint rstrip (s : string) : string :=
  match s with
  | String a s' =>
      let r := rstrip s' in
      if is_space a && String.eqb r "" then "" else String a r
  | EmptyString => s
  end.

Fixpoint digits (acc : Z) (after_digit : bool) (s : string) : option Z :=
  match s with
  | EmptyString => if after_digit then Some acc else None
  | String a s' =>
      match digit_of a with
      | Some d => digits (10 * acc + d) true s'
      | None =>
          if Ascii.eqb a "_" && after_digit then digits acc false s' else None
      end
  end.

Definition int_of_string (s : string) : option Z :=
  match rstrip (lstrip s) with
  | String "-" s' => Z.opp <$> digits 0 false s'
  | String "+" s' => digits 0 false s'
  | s' => digits 0 false s'
  end.

(** *** Column types

    The dtype of a column follows from its values, as pandas infers it: a
    column with a string in it has dtype object, and so has a column whose
    integers fit no single 64-bit type; otherwise a column that holds a
    float has dtype float64, in which an integer is stored as the nearest
    float; a column of integers has dtype int64 when they all fit, and
    uint64 when they are non-negative and fit that. *)

Inductive dtype : Type := int64 | uint64 | float64 | object.

Global Instance dtype_eq_dec : EqDecision dtype.
Proof. solve_decision. Defined.

Definition int64_min : Z := (- 2 ^ 63)%Z.
Definition int64_max : Z := (2 ^ 63 - 1)%Z.
Definition uint64_max : Z := (2 ^ 64 - 1)%Z.

Definition in_int64 (z : Z) : bool := (int64_min <=? z)%Z && (z <=? int64_max)%Z.
Definition in_uint64 (z : Z) : bool := (0 <=? z)%Z && (z <=? uint64_max)%Z.

Definition is_str (c : cell) : bool :=
  match c with CStr _ => true | _ => false end.

Definition is_float (c : cell) : bool :=
  match c with CFloat _ | CNaN | CInf => true | _ => false end.

(** The integers of a column all satisfy [p]. *)
Definition integers_in (p : Z → bool) (col : list cell) : bool :=
  forallb (λ c, match c with CInt z => p z | _ => true end) col.

Definition dtype_of (col : list cell) : dtype :=
  if existsb is_str col then object
  else if integers_in in_int64 col
  then (if existsb is_float col then float64 else int64)
  else if integers_in in_uint64 col
  then (if existsb is_float col then float64 else uint64)
  else object.

(** The float64 nearest to an integer (round to nearest, ties to even): an
    integer of at most 53 bits is exact, a longer one keeps its 53 leading
    bits. *)
Definition round53 (z : Z) : Z :=
  let n := Z.abs z in
  let shift := (Z.log2 n - 52)%Z in
  if (shift <=? 0)%Z then z
  else
    let q := (n / 2 ^ shift)%Z in
    let r := (n mod 2 ^ shift)%Z in
    let half := (2 ^ (shift - 1))%Z in
    let q' := if (half <? r)%Z || ((r =? half)%Z && Z.odd q) then (q + 1)%Z else q in
    (Z.sgn z * (q' * 2 ^ shift))%Z.

(** A value as a float64 column stores it. *)
Definition upcast_cell (c : cell) : cell :=
  match c with
  | CInt z => CFloat (inject_Z (round53 z))
  | _ => c
  end.

(** The values of a column as its dtype stores them. *)
Definition as_series (col : list cell) : list cell :=
  match dtype_of col with
  | float64 => upcast_cell <$> col
  | _ => col
  end.

(** The cell [b] holds the value [a]: as it is, or as its float, which is
    all a change of column type does to a value. *)
Definition held_as (a b : cell) : Prop := b = a ∨ b = upcast_cell a.

(** *** [Series.astype(int)]

    The target is the 64-bit integer, NumPy's [int] where the C long has 64
    bits.  A float64 column is checked for missing and infinite values,
    which raise [ValueError], and then cast: a float is truncated towards
    zero, and one beyond the 64-bit range comes out as the smallest 64-bit
    integer.  A uint64 column is cast modulo 2^64.  In an object column
    every value goes through [int], in order: an unreadable string and NaN
    raise [ValueError], an infinite float and a number beyond the 64-bit
    range raise [OverflowError]. *)

Definition wrap64 (z : Z) : Z := ((z + 2 ^ 63) mod 2 ^ 64 - 2 ^ 63)%Z.

Definition int_of_cell (d : dtype) (c : cell) : result Z :=
  let too_large := OverflowError "Python int too large to convert to C long" in
  let non_finite := ValueError "Cannot convert non-finite values (NA or inf) to integer" in
  match c with
  | CInt z =>
      match d with
      | float64 => Ok (let f := round53 z in if in_int64 f then f else int64_min)
      | uint64 => Ok (wrap64 z)
      | _ => if in_int64 z then Ok z else Err too_large
      end
  | CFloat q =>
      let z := Z.quot (Qnum q) (Zpos (Qden q)) in
      if in_int64 z then Ok z
      else match d with object => Err too_large | _ => Ok int64_min end
  | CNaN =>
      match d with
      | object => Err (ValueError "cannot convert float NaN to integer")
      | _ => Err non_finite
      end
  | CInf =>
      match d with
      | object => Err (OverflowError "cannot convert float infinity to integer")
      | _ => Err non_finite
      end
  | CStr s =>
      match int_of_string s with
      | Some z => if in_int64 z then Ok z else Err too_large
      | None => Err (ValueError "invalid literal for int() with base 10")
      end
  end.

Fixpoint astype_cells (d : dtype) (col : list cell) : result (list cell) :=
  match col with
  | [] => Ok []
  | c :: col' =>
      z ← int_of_cell d c;
      rest ← astype_cells d col';
      Ok (CInt z :: rest)
  end.

Definition astype_int (col : list cell) : result (list cell) :=
  astype_cells (dtype_of col) col.

(** A 64-bit integer cell. *)
Definition is_int64 (c : cell) : Prop := ∃ z, c = CInt z ∧ in_int64 z = true.

(** A finite binary value: the integer or the float 0 or 1. *)
Definition binary (c : cell) : Prop :=
  match c with
  | CInt z => z = 0%Z ∨ z = 1%Z
  | CFloat q => Qeq q 0 ∨ Qeq q 1
  | _ => False
  end.

(** [np.random.randint(0, 2, size=n)]: the generator is the oracle [draws],
    whose [i]-th answer is the [i]-th value drawn. *)
Definition randint_0_2 (draws : nat → bool) (size : nat) : list cell :=
  (λ i, CInt (if draws i then 1 else 0)) <$> seq 0 size.

(** ** Computations over the caller's frame *)

(** The state is the frame object the caller passed; a raised exception
    leaves the writes made so far in place. *)
Definition frameM (A : Type) : Type := DataFrame → DataFrame * result A.

Global Instance frameM_ret : MRet frameM := λ A a data, (data, Ok a).
Global Instance frameM_bind : MBind frameM := λ A B f m data,
  match m data with
  | (data', Ok a) => f a data'
  | (data', Err e) => (data', Err e)
  end.

Definition read {A} (f : DataFrame → A) : frameM A := λ data, (data, Ok (f data)).
Definition try_read {A} (f : DataFrame → result A) : frameM A := λ data, (data, f data).
Definition lift {A} (r : result A) : frameM A := λ data, (data, r).
Definition write (f : DataFrame → DataFrame) : frameM unit := λ data, (f data, Ok tt).

(** ** [preprocess_dataset] *)

Definition preprocessed : Type :=
  DataFrame * list string * list string * list string * string.

Section preprocess_dataset.
(** [featurize(data, features, exclude_cols, drop_first)] of
    [auto_causality.utils], which is not among the sources: it receives the
    caller's frame object itself (the state), may write to it, and returns a
    frame or raises. *)
Variable featurize : list string → list string → bool → frameM DataFrame.
Variable draws : nat → bool.

Definition preprocess_dataset : frameM preprocessed :=
  let treatment := "treatment" in
  let targets := ["y_factual"] in
  cols ← read columns;
  let features := filter (λ c, c ∉ treatment :: targets) cols in
  col ← try_read (λ data, getitem data treatment);
  ints ← lift (astype_int col);
  _ ← write (λ data, setitem data treatment ints);
  size ← read len;
  _ ← write (λ data, setitem data "random" (randint_0_2 draws size));
  used_df ← featurize features (treatment :: targets) false;
  let used_features := filter (λ c, c ∉ treatment :: targets) (columns used_df) in
  let features_X := filter (λ f, f ≠ "random") used_features in
  let features_W := filter (λ f, f ∉ features_X) used_features in
  mret (used_df, features_X, features_W, targets, treatment).

(** The frame as lines 163 and 165 leave it: the object handed to
    [featurize]. *)
Definition prepared (data : DataFrame) (ints : list cell) : DataFrame :=
  let data1 := setitem data "treatment" ints in
  setitem data1 "random" (randint_0_2 draws (len data1)).

End preprocess_dataset.

(** Line 161, and lines 170 to 176 as functions of the frame [featurize]
    returned. *)
Definition features_of (data : DataFrame) : list string :=
  filter (λ c, c ∉ ["treatment"; "y_factual"]) (columns data).

Definition used_features_of (used_df : DataFrame) : list string :=
  filter (λ c, c ∉ ["treatment"; "y_factual"]) (columns used_df).

Definition features_X_of (used_df : DataFrame) : list string :=
  filter (λ f, f ≠ "random") (used_features_of used_df).

Definition features_W_of (used_df : DataFrame) : list string :=
  filter (λ f, f ∉ features_X_of used_df) (used_features_of used_df).

Definition partition (used_df : DataFrame) : preprocessed :=
  (used_df, features_X_of used_df, features_W_of used_df, ["y_factual"], "treatment").

(** Modelled from the spec: [featurize] of [auto_causality.utils], which is
    missing from the sources.  The specification says that it consumes the
    frame, the feature list, the columns to exclude from transformation and
    the drop-first flag, and returns a transformed frame with the same row
    count.  On a frame without categorical columns there is nothing to
    expand: the excluded columns come first, as they are, followed by the
    other columns.  It serves as the concrete featurizer of the examples. *)
Definition featurize_numeric (features exclude_cols : list string) (drop_first : bool)
  : frameM DataFrame := λ df,
  match filter (λ c, c ∉ columns df) exclude_cols with
  | [] => (df, Ok (filter (λ kc, kc.1 ∈ exclude_cols) df ++
                   filter (λ kc, kc.1 ∉ exclude_cols) df)%list)
  | missing :: _ => (df, Err (KeyError missing))
  end.


(** ** Loaders *)

(** A loader prints and either returns or raises. *)
Definition ioM (A : Type) : Type := list string * result A.

Global Instance ioM_ret : MRet ioM := λ A a, ([], Ok a).
Global Instance ioM_bind : MBind ioM := λ A B f m,
  match m with
  | (out, Ok a) => let '(out', r) := f a in ((out ++ out')%list, r)
  | (out, Err e) => (out, Err e)
  end.

Definition print (line : string) : ioM unit := ([line], Ok tt).
Definition io {A} (r : result A) : ioM A := ([], r).
Definition assert (b : bool) : ioM unit := io (if b then Ok tt else Err AssertionError).

(** [try: body except AssertionError: handler] *)
Definition try_except_AssertionError (body handler : ioM unit) : ioM unit :=
  match body with
  | (out, Err AssertionError) => let '(out', r) := handler in ((out ++ out')%list, r)
  | other => other
  end.

(** Reading a local variable: [UnboundLocalError] when no assignment ran. *)
Definition local {A} (name : string) (binding : option A) : result A :=
  match binding with
  | Some v => Ok v
  | None => Err (UnboundLocalError name)
  end.

(** [df.columns[[i, j, k]]]: [IndexError] when a position is out of range. *)
Fixpoint take_positions (labels : list string) (positions : list nat) : result (list string) :=
  match positions with
  | [] => Ok []
  | i :: positions' =>
      match labels !! i with
      | Some l => rest ← take_positions labels positions'; Ok (l :: rest)
      | None => Err IndexError
      end
  end.

(** Python's [s in c] on strings. *)
Fixpoint contains (s c : string) : bool :=
  String.prefix s c ||
  match c with
  | String _ c' => contains s c'
  | EmptyString => false
  end.

(** [df.values]: the rows of a frame have dtype object when a column has,
    and else dtype float64 when a column has or when int64 and uint64
    columns meet; otherwise they are integers. *)
Definition float_rows (df : DataFrame) : bool :=
  let dtypes := (λ kc : string * list cell, dtype_of kc.2) <$> df in
  bool_decide (object ∉ dtypes) &&
  (bool_decide (float64 ∈ dtypes) ||
   bool_decide (int64 ∈ dtypes) && bool_decide (uint64 ∈ dtypes)).

(** A row as the function given to [DataFrame.apply(..., axis=1)] sees it:
    a series of the common dtype of the columns, in which [row[label]]
    raises [KeyError] for an unknown label. *)
Definition row_of (df : DataFrame) (i : nat) (label : string) : result cell :=
  col ← getitem df label;
  let v := default CNaN (col !! i) in
  Ok (if float_rows df then upcast_cell v else v).

(** The row of NaN, labelled by the columns, on which [apply] tries the
    function when the frame has no rows. *)
Definition nan_row (df : DataFrame) (label : string) : result cell :=
  _ ← getitem df label; Ok CNaN.

Fixpoint map_rows (f : (string → result cell) → result cell) (df : DataFrame)
    (rows : list nat) : result (list cell) :=
  match rows with
  | [] => Ok []
  | i :: rows' => v ← f (row_of df i); rest ← map_rows f df rows'; Ok (v :: rest)
  end.

(** [df.apply(f, axis=1)] for an [f] that returns scalars.  With rows, [f]
    is called on every row in turn, an exception of [f] propagates, and the
    values returned make a series.  Without rows, [f] is tried once on
    [nan_row]: when it returns the result is the empty series, when it
    raises the exception is dropped and the result is a copy of the frame. *)
Definition apply_axis1 (df : DataFrame) (f : (string → result cell) → result cell)
  : result (list cell + DataFrame) :=
  if decide (len df = 0)
  then Ok (match f (nan_row df) with Ok _ => inl [] | Err _ => inr df end)
  else col ← map_rows f df (seq 0 (len df)); Ok (inl (as_series col)).

(** [df[key] = value] for a series or a frame: a frame must have exactly
    one column, which is the one stored. *)
Definition setitem_value (df : DataFrame) (key : string) (value : list cell + DataFrame)
  : result DataFrame :=
  match value with
  | inl col => Ok (setitem df key col)
  | inr [(_, col)] => Ok (setitem df key col)
  | inr _ => Err (ValueError "Cannot set a DataFrame with multiple columns to a single column")
  end.

(** [pd.concat(parts, axis=1)] over default indexes: the columns side by
    side, the shorter ones filled with NaN up to the longest, which turns a
    column of 64-bit integers into a float64 one. *)
Definition pad (n : nat) (col : list cell) : list cell :=
  if decide (n ≤ length col) then col
  else
    match dtype_of col with
    | object => col
    | _ => upcast_cell <$> col
    end ++ replicate (n - length col) CNaN.

Definition concat_axis1 (parts : list DataFrame) : DataFrame :=
  let n := foldr Nat.max 0 (len <$> parts) in
  (λ kc : string * list cell, (kc.1, pad n kc.2)) <$> concat parts.

Definition nl : string := String (ascii_of_nat 10) "".

Definition assert_message : string :=
  "you need to specify which rating dataset you'd like to load. The options are 'pos' or 'neg'".

Definition gdown_message (url : string) : string :=
  "The Amazon dataset is hosted on google drive. As it's quite large, the gdown package is required to download" +:+ nl +:+
  "            the package automatically. The package can be installed via 'pip install gdown'." +:+ nl +:+
  "            Alternatively, you can download it from the following link and store it in the datasets folder:" +:+ nl +:+
  "            " +:+ url.

Definition ihdp_url : string :=
  "https://raw.githubusercontent.com/AMLab-Amsterdam/CEVAE/master/datasets/IHDP/csv/ihdp_npci_1.csv".

Definition acic_covariates_url : string :=
  "https://raw.githubusercontent.com/IBM/causallib/" +:+ nl +:+
  "        master/causallib/datasets/data/acic_challenge_2016/x.csv".

Definition acic_zymu_url (condition : Z) : string :=
  "https://raw.githubusercontent.com/IBM/causallib/master/causallib/" +:+ nl +:+
  "    datasets/data/acic_challenge_2016/zymu_" +:+ pretty condition +:+ ".csv".

Section loaders.
(** [pd.read_csv]: what the path or URL holds, or the error of the fetch. *)
Variable read_csv : string → result DataFrame.
(** [import gdown]: [None] when the import raises [ImportError], the
    module's [download(url, output, fuzzy=True)] otherwise. *)
Variable gdown : option (string → string → result unit).

Definition amazon_reviews (rating : string) : ioM (option DataFrame) :=
  _ ← try_except_AssertionError
        (assert (bool_decide (rating ∈ ["pos"; "neg"])))
        (print assert_message);
  match gdown with
  | Some download =>
      let url :=
        if decide (rating = "pos")
        then Some "https://drive.google.com/file/d/167CYEnYinePTNtKpVpsg0BVkoTwOwQfK/view?usp=sharing"
        else if decide (rating = "neg")
        then Some "https://drive.google.com/file/d/1b-MPNqxCyWSJE5uyn5-VJUwC8056HM8u/view?usp=sharing"
        else None in
      url ← io (local "url" url);
      _ ← io (download url ("amazon_" +:+ rating +:+ ".csv"));
      df ← io (read_csv ("amazon_" +:+ rating +:+ ".csv"));
      dropped ← io (take_positions (columns df) [2; 3; 4]);
      let df := drop_columns df dropped in
      df ← io (set_columns df
                 (["treatment"; "y_factual"] ++ ((λ i, "x_" +:+ pretty i) <$> seq 1 300))%list);
      mret (Some df)
  | None =>
      url ← io (local "url" None);
      _ ← print (gdown_message url);
      mret None
  end.

Definition synth_ihdp : result DataFrame :=
  data ← read_csv ihdp_url;
  let col :=
    (["treatment"; "y_factual"; "y_cfactual"; "mu0"; "mu1"]
       ++ ((λ i, "x" +:+ pretty i) <$> seq 1 25))%list in
  data ← set_columns data col;
  let ignore_patterns := ["y_cfactual"; "mu"] in
  let ignore_cols :=
    filter (λ c, Is_true (existsb (λ s, contains s c) ignore_patterns)) (columns data) in
  mret (drop_columns data ignore_cols).

Definition synth_acic (condition : Z) : result DataFrame :=
  covariates ← read_csv acic_covariates_url;
  let url := acic_zymu_url condition in
  z_y_mu ← read_csv url;
  applied ← apply_axis1 z_y_mu
               (λ row, z ← row "z"; if truthy z then row "y1" else row "y0");
  z_y_mu ← setitem_value z_y_mu "y_factual" applied;
  z ← getitem z_y_mu "z";
  y_factual ← getitem z_y_mu "y_factual";
  let data := concat_axis1 [[("z", z)]; [("y_factual", y_factual)]; covariates] in
  mret (rename_column "z" "treatment" data).

End loaders.

(** ** Tuning orchestrator and selector

    [CausalTune.fit] and the selection of the best estimator are not among
    the sources; the definitions of this part follow the specification
    (sections 3, 4.4, 4.5 and 7). *)

(** Modelled from the spec: the metric's direction, lower-is-better or
    higher-is-better, fixed per metric choice. *)
Inductive direction : Type := LowerIsBetter | HigherIsBetter.

(** Modelled from the spec: the budget of a run, a wall-clock ceiling per
    trial, a maximum trial count, or both. *)
Record Budget : Type := {
  trial_time : option nat;
  max_trials : option nat;
}.

(** Modelled from the spec: a trial exceeds its allotted time. *)
Definition exceeds (ceiling : option nat) (time : nat) : bool :=
  match ceiling with
  | Some c => c <? time
  | None => false
  end.

Section orchestrator.
(** The processed dataset, the run configuration and a fitted artifact. *)
Variables dataset config model : Type.

(** Modelled from the spec: what fitting one estimator does, the time it
    takes and either the fitted artifact or the reason of the failure
    (non-convergence, incompatible shape, an error of the library). *)
Record Attempt : Type := {
  elapsed : nat;
  fitted : model + string;
}.

(** Modelled from the spec: the estimator library boundary
    ([fit(features, treatment, outcome[, propensity_model])], instantiated
    from the configuration) and the Scorer ([score(fitted_estimator,
    dataset)]); scores are compared as integers. *)
Variable fit : config → dataset → string → Attempt.
Variable score : model → dataset → Z.

(** Modelled from the spec: a Trial Result, the fitted artifact and its
    score on success, the failure reason otherwise. *)
Inductive TrialResult : Type :=
  | Succeeded (artifact : model) (points : Z)
  | Failed (reason : string).

(** Modelled from the spec: a Run Result, the mapping from estimator
    identifier to Trial Result (in insertion order, as a Python dict keeps
    it) and the pointer to the best-scoring trial. *)
Record RunResult : Type := {
  trials : list (string * TrialResult);
  best : option string;
}.

(** Modelled from the spec: the success flag of a Trial Result. *)
Definition succeeded (t : TrialResult) : bool :=
  match t with Succeeded _ _ => true | Failed _ => false end.

(** Modelled from the spec: a trial that exceeds its allotted time is
    recorded as failed with reason budget exceeded; a fitting failure is
    recorded with its reason; a success is scored. *)
Definition trial (data : dataset) (cfg : config) (budget : Budget) (id : string)
  : TrialResult :=
  let a := fit cfg data id in
  if exceeds (trial_time budget) (elapsed a) then Failed "budget exceeded"
  else match fitted a with
       | inl m => Succeeded m (score m data)
       | inr reason => Failed reason
       end.

(** Modelled from the spec: writing one key of the result table. *)
Definition record_trial (table : list (string * TrialResult)) (id : string)
    (t : TrialResult) : list (string * TrialResult) :=
  if decide (id ∈ table.*1)
  then (λ kt : string * TrialResult, if decide (kt.1 = id) then (id, t) else kt) <$> table
  else (table ++ [(id, t)])%list.

(** Modelled from the spec: the candidates are tried in order, a failure
    is recorded and the next candidate follows; the loop ends when all
    candidates are processed or the trial count is exhausted. *)
Fixpoint run_trials (data : dataset) (cfg : config) (budget : Budget)
    (remaining : option nat) (candidate_list : list string)
    (table : list (string * TrialResult)) : list (string * TrialResult) :=
  match candidate_list with
  | [] => table
  | id :: rest =>
      match remaining with
      | Some 0 => table
      | _ =>
          run_trials data cfg budget (Nat.pred <$> remaining) rest
            (record_trial table id (trial data cfg budget id))
      end
  end.

(** Modelled from the spec: a score is better than another in the
    metric's direction. *)
Definition better (d : direction) (a b : Z) : bool :=
  match d with
  | LowerIsBetter => (a <? b)%Z
  | HigherIsBetter => (b <? a)%Z
  end.

(** Modelled from the spec: the optimal score among successful trials
    only, the earliest in candidate order among equal scores. *)
Fixpoint scan_best (d : direction) (incumbent : option (string * Z))
    (table : list (string * TrialResult)) : option (string * Z) :=
  match table with
  | [] => incumbent
  | (id, Failed _) :: rest => scan_best d incumbent rest
  | (id, Succeeded _ s) :: rest =>
      match incumbent with
      | Some (_, s0) =>
          if better d s s0 then scan_best d (Some (id, s)) rest
          else scan_best d incumbent rest
      | None => scan_best d (Some (id, s)) rest
      end
  end.

(** Modelled from the spec: the selection behind [CausalTune.best_estimator],
    missing from the sources, as the contract [select_best(run_result) ->
    identifier] of section 4.5, which fails with [NoSuccessfulTrialError] if
    every trial failed. *)
Definition select_best (d : direction) (rr : RunResult) : result string :=
  match scan_best d None (trials rr) with
  | Some (id, _) => Ok id
  | None => Err NoSuccessfulTrialError
  end.

(** Modelled from the spec: [CausalTune.fit], missing from the sources,
    as the contract [run(dataset, candidate_list, budget, config) ->
    RunResult] of section 4.4. *)
Definition run (d : direction) (data : dataset) (candidate_list : list string)
    (budget : Budget) (cfg : config) : RunResult :=
  let table := run_trials data cfg budget (max_trials budget) candidate_list [] in
  {| trials := table; best := fst <$> scan_best d None table |}.

End orchestrator.

Arguments elapsed {model} a.
Arguments fitted {model} a.
Arguments Succeeded {model} artifact points.
Arguments Failed {model} reason.
Arguments trials {model} r.
Arguments best {model} r.
Arguments succeeded {model} t.
Arguments trial {dataset config model} fit score data cfg budget id.
Arguments record_trial {model} table id t.
Arguments run_trials {dataset config model} fit score data cfg budget remaining candidate_list table.
Arguments scan_best {model} d incumbent table.
Arguments select_best {model} d rr.
Arguments run {dataset config model} fit score d data candidate_list budget cfg.

(** Modelled from the spec: the trial count of the budget is not exhausted
    before [n] candidates are processed. *)
Definition admits (remaining : option nat) (n : nat) : Prop :=
  match remaining with
  | Some m => n ≤ m
  | None => True
  end.

(** The shape the loaders promise: a column named treatment, a column
    named y_factual, and after them the covariates. *)
Definition loader_frame (covariates : list string) (data : DataFrame) : Prop :=
  columns data = "treatment" :: "y_factual" :: covariates.

(** The pieces of [amazon_reviews] and [synth_acic] by name: the link the
    rating selects, the file the download writes and the read opens, the 302
    labels of line 51, and the function line 139 applies to every row. *)
Definition amazon_url (rating : string) : string :=
  if decide (rating = "pos")
  then "https://drive.google.com/file/d/167CYEnYinePTNtKpVpsg0BVkoTwOwQfK/view?usp=sharing"
  else "https://drive.google.com/file/d/1b-MPNqxCyWSJE5uyn5-VJUwC8056HM8u/view?usp=sharing".

Definition amazon_file (rating : string) : string := "amazon_" +:+ rating +:+ ".csv".

Definition amazon_labels : list string :=
  ["treatment"; "y_factual"] ++ ((λ i, "x_" +:+ pretty i) <$> seq 1 300).

Definition factual_outcome (row : string → result cell) : result cell :=
  z ← row "z"; if truthy z then row "y1" else row "y0".

(** The outcome column line 139 reads at row [i]. *)
Definition outcome_label (zs : list cell) (i : nat) : string :=
  if truthy (default CNaN (zs !! i)) then "y1" else "y0".

(** ** Example inputs *)

Definition ex_draws (i : nat) : bool := Nat.even i.

(** Three rows, a treatment stored as the floats 1.0 and 0.0, one outcome
    and one numeric covariate. *)
Definition ex_data : DataFrame :=
  [("treatment", [CFloat (1 # 1); CFloat (0 # 1); CFloat (1 # 1)]);
   ("y_factual", [CFloat (5 # 2); CFloat (1 # 1); CFloat (7 # 4)]);
   ("age", [CInt 31; CInt 45; CInt 27])].

(** [ex_data] after the call with the draws [ex_draws]. *)
Definition ex_prepared : DataFrame :=
  [("treatment", [CInt 1; CInt 0; CInt 1]);
   ("y_factual", [CFloat (5 # 2); CFloat (1 # 1); CFloat (7 # 4)]);
   ("age", [CInt 31; CInt 45; CInt 27]);
   ("random", [CInt 1; CInt 0; CInt 1])].



(** The three files behind the loaders, cut down to a few rows: 30 unnamed
    columns for IHDP; the covariates and the treatment and outcome pairs of
    ACIC; 305 columns for the Amazon reviews. *)
Definition ex_ihdp_raw : DataFrame :=
  (λ i, (pretty i, [CInt (Z.of_nat i)])) <$> seq 0 30.

Definition ex_acic_covariates : DataFrame :=
  [("x_1", [CInt 3; CInt 4]); ("x_2", [CStr "A"; CStr "B"])].

Definition ex_acic_zymu : DataFrame :=
  [("z", [CInt 1; CInt 0]);
   ("y0", [CFloat (1 # 2); CFloat (3 # 2)]);
   ("y1", [CFloat (5 # 2); CFloat (7 # 2)]);
   ("mu0", [CFloat (1 # 1); CFloat (1 # 1)]);
   ("mu1", [CFloat (2 # 1); CFloat (2 # 1)])].

Definition ex_amazon_raw : DataFrame :=
  (λ i, (pretty i, [CInt (Z.of_nat i)])) <$> seq 0 305.

Definition ex_read_csv (path : string) : result DataFrame :=
  if decide (path = ihdp_url) then Ok ex_ihdp_raw
  else if decide (path = acic_covariates_url) then Ok ex_acic_covariates
  else if decide (path = acic_zymu_url 1) then Ok ex_acic_zymu
  else if decide (path = "amazon_pos.csv") then Ok ex_amazon_raw
  else Err (ExternalError "file not found").

Definition ex_gdown : option (string → string → result unit) :=
  Some (λ url output, Ok tt).

(** Four candidates under a ceiling of ten time units per trial: the first
    fits in time, the second needs too long, the third does not converge,
    the fourth fits with a lower score. *)
Definition ex_candidates : list string :=
  ["LinearDML"; "OrthoForest"; "DomainAdaptationLearner"; "SLearner"].

Definition ex_fit (cfg : unit) (data : DataFrame) (id : string) : Attempt string :=
  if decide (id = "LinearDML") then {| elapsed := 3; fitted := inl "dml" |}
  else if decide (id = "OrthoForest") then {| elapsed := 25; fitted := inl "forest" |}
  else if decide (id = "SLearner") then {| elapsed := 2; fitted := inl "slearner" |}
  else {| elapsed := 1; fitted := inr "did not converge" |}.

Definition ex_score (m : string) (data : DataFrame) : Z :=
  if decide (m = "dml") then 7 else 4.

Definition ex_budget : Budget := {| trial_time := Some 10; max_trials := Some 4 |}.

(** A frame without a treatment column. *)
Definition ex_no_treatment : DataFrame :=
  [("y_factual", [CFloat (5 # 2); CFloat (1 # 1)]); ("age", [CInt 31; CInt 45])].

(** A frame with a treatment column and no outcome column. *)
Definition ex_no_outcome : DataFrame :=
  [("treatment", [CInt 1; CInt 0]); ("age", [CInt 31; CInt 45])].


(** A treatment file of ACIC in which no row is treated and the column y1
    is absent. *)
Definition ex_acic_untreated : DataFrame :=
  [("z", [CInt 0; CInt 0]); ("y0", [CFloat (1 # 2); CFloat (3 # 2)])].

(** A treatment file of ACIC whose first row is treated, without y1. *)
Definition ex_acic_no_y1 : DataFrame :=
  [("z", [CInt 1; CInt 0]); ("y0", [CFloat (1 # 2); CFloat (3 # 2)])].

(** A treatment file of ACIC with its header and no row, and one with a
    single row; a covariate file with a single row. *)
Definition ex_acic_no_rows : DataFrame :=
  [("z", []); ("y0", []); ("y1", []); ("mu0", []); ("mu1", [])].

Definition ex_acic_one_row : DataFrame :=
  [("z", [CInt 1]); ("y0", [CFloat (1 # 2)]); ("y1", [CFloat (5 # 2)])].

Definition ex_acic_one_covariate_row : DataFrame :=
  [("x_1", [CInt 3]); ("x_2", [CStr "A"])].

Definition ex_read_files (covariates z_y_mu : DataFrame) (path : string)
  : result DataFrame :=
  if decide (path = acic_covariates_url) then Ok covariates
  else if decide (path = acic_zymu_url 1) then Ok z_y_mu
  else Err (ExternalError "file not found").

Definition ex_read_acic (z_y_mu : DataFrame) (path : string) : result DataFrame :=
  if decide (path = acic_covariates_url) then Ok ex_acic_covariates
  else if decide (path = acic_zymu_url 1) then Ok z_y_mu
  else Err (ExternalError "file not found").

(** * Properties *)

(** ** Frames *)

Lemma columns_setitem (df : DataFrame) (key : string) (value : list cell) :
  columns (setitem df key value) =
  if decide (key ∈ columns df) then columns df else (columns df ++ [key])%list.
Proof.
  unfold setitem, columns. case_decide as Hin.
  - rewrite <- list_fmap_compose. apply list_fmap_ext.
    intros i [k col] _; simpl. by case_decide; simplify_eq/=.
  - by rewrite fmap_app.
Qed.

Lemma getitem_ok_columns (df : DataFrame) (key : string) (col : list cell) :
  getitem df key = Ok col → key ∈ columns df.
Proof.
  induction df as [|[k c] df IH]; simpl; [done|].
  case_decide; [subst; set_solver|]. intros ?%IH. set_solver.
Qed.

Lemma getitem_missing (df : DataFrame) (key : string) :
  key ∉ columns df → getitem df key = Err (KeyError key).
Proof.
  induction df as [|[k c] df IH]; simpl; [done|].
  intros [? ?]%not_elem_of_cons. rewrite decide_False by done. by apply IH.
Qed.

Lemma getitem_app_r (df : DataFrame) (key : string) (value : list cell) :
  key ∉ columns df → getitem (df ++ [(key, value)]) key = Ok value.
Proof.
  induction df as [|[k c] df IH]; simpl; intros Hnin.
  - by rewrite decide_True.
  - rewrite decide_False by set_solver. apply IH. set_solver.
Qed.

Lemma getitem_app_ne (df : DataFrame) (key k : string) (value : list cell) :
  k ≠ key → getitem (df ++ [(key, value)]) k = getitem df k.
Proof.
  intros Hne. induction df as [|[k' c] df IH]; simpl.
  - by rewrite decide_False.
  - by case_decide.
Qed.

Lemma getitem_setitem_eq (df : DataFrame) (key : string) (value : list cell) :
  getitem (setitem df key value) key = Ok value.
Proof.
  unfold setitem. case_decide as Hin; [|by apply getitem_app_r].
  induction df as [|[k c] df IH]; simpl in *; [by apply elem_of_nil in Hin|].
  destruct (decide (k = key)) as [->|Hne]; simpl.
  - by rewrite decide_True.
  - rewrite decide_False by done. apply IH. set_solver.
Qed.

Lemma getitem_setitem_ne (df : DataFrame) (key k : string) (value : list cell) :
  k ≠ key → getitem (setitem df key value) k = getitem df k.
Proof.
  intros Hne. unfold setitem. case_decide as Hin; [|by apply getitem_app_ne].
  clear Hin. induction df as [|[k' c] df IH]; simpl; [done|].
  destruct (decide (k' = key)) as [->|Hne']; simpl.
  - by rewrite !decide_False.
  - by case_decide.
Qed.

Lemma columns_drop_columns (df : DataFrame) (labels : list string) :
  columns (drop_columns df labels) = filter (λ c, c ∉ labels) (columns df).
Proof.
  unfold drop_columns, columns.
  induction df as [|[k c] df IH]; [done|].
  rewrite fmap_cons; simpl. destruct (decide (k ∉ labels)).
  - rewrite !filter_cons_True by done. rewrite fmap_cons. by f_equal.
  - by rewrite !filter_cons_False by done.
Qed.

Lemma set_columns_ok (df df' : DataFrame) (labels : list string) :
  set_columns df labels = Ok df' →
  length labels = length df ∧ df' = zip labels df.*2 ∧ columns df' = labels.
Proof.
  unfold set_columns. case_decide as Hlen; [|done]. intros [= <-].
  split_and!; [done..|]. unfold columns. apply fst_zip.
  rewrite length_fmap. lia.
Qed.

(** ** Coercion to integers *)

Lemma in_int64_spec (z : Z) : in_int64 z = true ↔ (- 2 ^ 63 ≤ z ≤ 2 ^ 63 - 1)%Z.
Proof. unfold in_int64, int64_min, int64_max. lia. Qed.

Lemma wrap64_in_int64 (z : Z) : in_int64 (wrap64 z) = true.
Proof.
  apply in_int64_spec. unfold wrap64.
  pose proof (Z.mod_pos_bound (z + 2 ^ 63) (2 ^ 64)). lia.
Qed.


Lemma int_of_cell_in_int64 (d : dtype) (c : cell) (z : Z) :
  int_of_cell d c = Ok z → in_int64 z = true.
Proof.
  destruct c as [z'|q| | |s]; simpl.
  - destruct d.
    + destruct (in_int64 z') eqn:Hz; [|done]. by intros [= <-].
    + intros [= <-]. apply wrap64_in_int64.
    + intros [= <-]. by destruct (in_int64 (round53 z')) eqn:Hz.
    + destruct (in_int64 z') eqn:Hz; [|done]. by intros [= <-].
  - destruct (in_int64 _) eqn:Hz; [by intros [= <-]|].
    destruct d; try done; by intros [= <-].
  - by destruct d.
  - by destruct d.
  - destruct (int_of_string s) as [z'|]; [|done].
    destruct (in_int64 z') eqn:Hz; [|done]. by intros [= <-].
Qed.

Lemma astype_cells_ok (d : dtype) (col ints : list cell) :
  astype_cells d col = Ok ints →
  Forall2 (λ c i, ∃ z, int_of_cell d c = Ok z ∧ i = CInt z) col ints.
Proof.
  revert ints. induction col as [|c col IH]; simpl; intros ints.
  - intros [= <-]. constructor.
  - destruct (int_of_cell d c) as [z|e] eqn:Hc; simpl; [|done].
    destruct (astype_cells d col) as [rest|e]; simpl; [|done].
    intros [= <-]. constructor; eauto.
Qed.

Lemma astype_int_ok (col ints : list cell) :
  astype_int col = Ok ints →
  Forall2 (λ c i, ∃ z, int_of_cell (dtype_of col) c = Ok z ∧ i = CInt z) col ints.
Proof. apply astype_cells_ok. Qed.

Lemma astype_int_length (col ints : list cell) :
  astype_int col = Ok ints → length ints = length col.
Proof. intros H%astype_int_ok. symmetry. by eapply Forall2_length. Qed.

Lemma astype_int_int64 (col ints : list cell) :
  astype_int col = Ok ints → Forall is_int64 ints.
Proof.
  intros H%astype_int_ok.
  induction H as [|c i col' ints (z & Hz & ->) _ IH]; constructor; [|done].
  exists z. split; [done|]. by eapply int_of_cell_in_int64.
Qed.



Lemma binary_int_of_cell (d : dtype) (c : cell) :
  binary c → ∃ z, int_of_cell d c = Ok z ∧ (z = 0 ∨ z = 1)%Z.
Proof.
  destruct c as [z|[n den]| | |s]; simpl; try done.
  - intros [-> | ->]; [exists 0%Z|exists 1%Z]; by destruct d; auto.
  - unfold Qeq; simpl. intros [H|H].
    + exists 0%Z. assert (n = 0%Z) as -> by lia. rewrite Z.quot_0_l by done. auto.
    + exists 1%Z. assert (n = Z.pos den) as -> by lia. rewrite Z.quot_same by done. auto.
Qed.

Lemma binary_astype_cells (d : dtype) (col : list cell) :
  Forall binary col →
  ∃ ints, astype_cells d col = Ok ints ∧ Forall (λ c, c = CInt 0 ∨ c = CInt 1) ints.
Proof.
  induction 1 as [|c col Hc _ (ints & IH & Hints)]; simpl; [by exists []|].
  destruct (binary_int_of_cell d c Hc) as (z & -> & Hz); simpl. rewrite IH; simpl.
  exists (CInt z :: ints). split; [done|]. constructor; [|done].
  destruct Hz as [-> | ->]; auto.
Qed.

Lemma binary_astype_int (col : list cell) :
  Forall binary col →
  ∃ ints, astype_int col = Ok ints ∧ Forall (λ c, c = CInt 0 ∨ c = CInt 1) ints.
Proof. apply binary_astype_cells. Qed.

Lemma dtype_of_int64 (col : list cell) :
  Forall is_int64 col → dtype_of col = int64.
Proof.
  intros Hcol. unfold dtype_of.
  assert (existsb is_str col = false ∧ existsb is_float col = false ∧
          integers_in in_int64 col = true) as (-> & -> & ->); [|done].
  unfold integers_in.
  induction Hcol as [|c col (z & -> & Hz) _ (? & ? & ?)]; simpl; [done|].
  by rewrite Hz.
Qed.

Lemma astype_int_ints (col : list cell) :
  Forall is_int64 col → astype_int col = Ok col.
Proof.
  intros Hcol. unfold astype_int. rewrite (dtype_of_int64 _ Hcol).
  induction Hcol as [|c col (z & -> & Hz) _ IH]; simpl; [done|].
  rewrite Hz; simpl. by rewrite IH.
Qed.

Lemma astype_int_idem (col ints : list cell) :
  astype_int col = Ok ints → astype_int ints = Ok ints.
Proof. intros H%astype_int_int64. by apply astype_int_ints. Qed.

Lemma randint_0_2_length (draws : nat → bool) (size : nat) :
  length (randint_0_2 draws size) = size.
Proof. unfold randint_0_2. by rewrite length_fmap, length_seq. Qed.



Lemma len_setitem (df : DataFrame) (key : string) (col value : list cell) :
  getitem df key = Ok col → length value = length col →
  len (setitem df key value) = len df.
Proof.
  intros Hget Hlen. unfold setitem.
  rewrite decide_True by (by eapply getitem_ok_columns).
  destruct df as [|[k c] df]; [done|]. simpl in *.
  destruct (decide (k = key)); simpl; [|done]. by simplify_eq.
Qed.

Lemma rectangular_setitem (df : DataFrame) (key : string) (value : list cell) :
  rectangular df → df ≠ [] → length value = len df →
  rectangular (setitem df key value).
Proof.
  unfold rectangular. intros Hrect Hne Hlen.
  assert (len (setitem df key value) = len df) as ->.
  { unfold setitem. destruct df as [|[k c] df]; [done|].
    apply Forall_cons in Hrect as [Hc _]. simpl in *.
    case_decide; simpl; [|done]. by case_decide. }
  unfold setitem. case_decide.
  - apply Forall_fmap. eapply Forall_impl; [done|].
    intros [k c] Hc; simpl in *. by case_decide.
  - apply Forall_app. split; [done|]. by apply Forall_singleton.
Qed.


(** ** [preprocess_dataset] *)

Lemma preprocess_dataset_unfold (featurize : list string → list string → bool → frameM DataFrame)
    (draws : nat → bool) (data : DataFrame) :
  preprocess_dataset featurize draws data =
  match getitem data "treatment" with
  | Err e => (data, Err e)
  | Ok col =>
      match astype_int col with
      | Err e => (data, Err e)
      | Ok ints =>
          match featurize (features_of data) ["treatment"; "y_factual"] false
                  (prepared draws data ints) with
          | (data', Ok used_df) => (data', Ok (partition used_df))
          | (data', Err e) => (data', Err e)
          end
      end
  end.
Proof.
  unfold preprocess_dataset, prepared, partition, mbind, frameM_bind, read, try_read,
    lift, write, mret, frameM_ret; simpl.
  destruct (getitem data "treatment") as [col|e]; [|done].
  destruct (astype_int col) as [ints|e]; [|done].
  by destruct (featurize _ _ _ _) as [data' [used_df|e]].
Qed.

Lemma preprocess_dataset_ok (featurize : list string → list string → bool → frameM DataFrame)
    (draws : nat → bool) (data data' : DataFrame) (r : preprocessed) :
  preprocess_dataset featurize draws data = (data', Ok r) →
  ∃ col ints used_df,
    getitem data "treatment" = Ok col ∧ astype_int col = Ok ints ∧
    featurize (features_of data) ["treatment"; "y_factual"] false (prepared draws data ints)
      = (data', Ok used_df) ∧
    r = partition used_df.
Proof.
  rewrite preprocess_dataset_unfold.
  destruct (getitem data "treatment") as [col|e] eqn:Hcol; [|done].
  destruct (astype_int col) as [ints|e] eqn:Hints; [|done].
  destruct (featurize _ _ _ _) as [data'' [used_df|e]] eqn:Hfz; [|done].
  intros [= <- <-]. by exists col, ints, used_df.
Qed.

Lemma elem_of_used_features (used_df : DataFrame) (c : string) :
  c ∈ used_features_of used_df ↔
  c ∈ columns used_df ∧ c ≠ "treatment" ∧ c ≠ "y_factual".
Proof.
  unfold used_features_of. rewrite list_elem_of_filter, !not_elem_of_cons. 
  split; [intros [(? & ? & _) ?]|intros (? & ? & ?)]; split_and!; try done.
  apply not_elem_of_nil.
Qed.

Lemma elem_of_features_X (used_df : DataFrame) (c : string) :
  c ∈ features_X_of used_df ↔
  c ∈ columns used_df ∧ c ≠ "treatment" ∧ c ≠ "y_factual" ∧ c ≠ "random".
Proof.
  unfold features_X_of. rewrite list_elem_of_filter, elem_of_used_features. tauto.
Qed.

Lemma elem_of_features_W (used_df : DataFrame) (c : string) :
  c ∈ features_W_of used_df ↔ c ∈ columns used_df ∧ c = "random".
Proof.
  unfold features_W_of.
  rewrite list_elem_of_filter, elem_of_features_X, elem_of_used_features.
  split.
  - intros [Hn (? & ? & ?)]. split; [done|].
    destruct (decide (c = "random")); [done|]. destruct Hn. by split_and!.
  - intros [? ->]. split_and!; try done. by intros (_ & _ & _ & ?).
Qed.

Lemma prepared_getitem_treatment (draws : nat → bool) (data : DataFrame) (ints : list cell) :
  getitem (prepared draws data ints) "treatment" = Ok ints.
Proof.
  unfold prepared; simpl. rewrite getitem_setitem_ne by done. apply getitem_setitem_eq.
Qed.

Lemma prepared_getitem_random (draws : nat → bool) (data : DataFrame) (col ints : list cell) :
  getitem data "treatment" = Ok col → length ints = length col →
  getitem (prepared draws data ints) "random" = Ok (randint_0_2 draws (len data)).
Proof.
  intros Hget Hlen. unfold prepared; simpl.
  rewrite getitem_setitem_eq. by erewrite len_setitem.
Qed.

Lemma prepared_getitem_other (draws : nat → bool) (data : DataFrame) (ints : list cell)
    (k : string) :
  k ≠ "treatment" → k ≠ "random" →
  getitem (prepared draws data ints) k = getitem data k.
Proof.
  intros ??. unfold prepared; simpl. by rewrite !getitem_setitem_ne.
Qed.

Lemma prepared_columns (draws : nat → bool) (data : DataFrame) (col ints : list cell) :
  getitem data "treatment" = Ok col →
  columns (prepared draws data ints) =
  if decide ("random" ∈ columns data) then columns data else columns data ++ ["random"].
Proof.
  intros Hget%getitem_ok_columns. unfold prepared; simpl.
  rewrite !columns_setitem. rewrite (decide_True _ _ Hget). done.
Qed.

Lemma getitem_length (df : DataFrame) (key : string) (col : list cell) (n : nat) :
  Forall (λ kc, length kc.2 = n) df → getitem df key = Ok col → length col = n.
Proof.
  induction 1 as [|[k c] df Hc _ IH]; simpl; [done|].
  case_decide; [by intros [= <-]|done].
Qed.

(** The two assignments keep the frame rectangular, so neither can raise
    the length mismatch pandas checks for. *)
Lemma prepared_rectangular (draws : nat → bool) (data : DataFrame) (col ints : list cell) :
  rectangular data → getitem data "treatment" = Ok col → astype_int col = Ok ints →
  rectangular (prepared draws data ints).
Proof.
  intros Hrect Hget Hints. unfold prepared; simpl.
  assert (data ≠ []) as Hne by (by destruct data).
  pose proof (getitem_length _ _ _ _ Hrect Hget) as Hcol.
  apply astype_int_length in Hints as Hlen.
  apply rectangular_setitem.
  - apply rectangular_setitem; [done..|lia].
  - unfold setitem. case_decide; by destruct data.
  - by rewrite randint_0_2_length.
Qed.

(** With a binary treatment column the lines before the call of
    [featurize] do not raise: the call returns exactly when [featurize]
    returns on the prepared frame. *)
Lemma preprocess_dataset_returns (featurize : list string → list string → bool → frameM DataFrame)
    (draws : nat → bool) (data : DataFrame) (col : list cell) :
  getitem data "treatment" = Ok col → Forall binary col →
  ∃ ints, astype_int col = Ok ints ∧
    ∀ data' used_df,
      featurize (features_of data) ["treatment"; "y_factual"] false (prepared draws data ints)
        = (data', Ok used_df) →
      preprocess_dataset featurize draws data = (data', Ok (partition used_df)).
Proof.
  intros Hget (ints & Hints & _)%binary_astype_int. exists ints. split; [done|].
  intros data' used_df Hfz. by rewrite preprocess_dataset_unfold, Hget, Hints, Hfz.
Qed.

(** C2. In every tuple returned by [preprocess_dataset] (in particular for a
    dataset with at least one row and a finite binary treatment column), no
    name is in both [features_X] and [features_W], and the name of the
    treatment column is in neither. *)
Theorem features_disjoint (featurize : list string → list string → bool → frameM DataFrame)
    (draws : nat → bool) (data data' used_df : DataFrame)
    (features_X features_W targets : list string) (treatment : string) :
  preprocess_dataset featurize draws data
    = (data', Ok (used_df, features_X, features_W, targets, treatment)) →
  (∀ f, f ∈ features_X → f ∉ features_W) ∧
  (treatment ∉ features_X) ∧ (treatment ∉ features_W).
Proof.
  intros (col & ints & used & _ & _ & _ & Hr)%preprocess_dataset_ok.
  unfold partition in Hr. simplify_eq. split_and!.
  - intros f (_ & _ & _ & Hf)%elem_of_features_X (_ & ?)%elem_of_features_W. done.
  - by intros (_ & ? & _)%elem_of_features_X.
  - by intros (_ & ?)%elem_of_features_W.
Qed.

Lemma features_disjoint_witness :
  (∀ f, f ∈ ["age"] → f ∉ ["random"]) ∧ ("treatment" ∉ ["age"]) ∧ ("treatment" ∉ ["random"]).
Proof.
  eapply (features_disjoint featurize_numeric ex_draws ex_data).
  vm_compute. reflexivity.
Defined.



(** The conversion on a few columns.  Strings: a label is unreadable, a
    number of 64 bits and more is too large, blanks around a number are
    dropped.  Floats: truncated towards zero, the smallest integer for a
    float out of range, [ValueError] for NaN.  Integers beyond 63 bits: a
    uint64 column is cast modulo 2^64, a Python integer is too large. *)
Lemma conversion_examples :
  astype_int [CStr "treated"; CStr "control"]
    = Err (ValueError "invalid literal for int() with base 10") ∧
  astype_int [CStr "1"; CStr "9223372036854775808"]
    = Err (OverflowError "Python int too large to convert to C long") ∧
  astype_int [CStr "1"; CStr " -9223372036854775808 "]
    = Ok [CInt 1; CInt (-9223372036854775808)] ∧
  astype_int [CFloat (10000000000000000000 # 1); CFloat (-5 # 2)]
    = Ok [CInt (-9223372036854775808); CInt (-2)] ∧
  astype_int [CFloat (1 # 1); CNaN]
    = Err (ValueError "Cannot convert non-finite values (NA or inf) to integer") ∧
  astype_int [CStr "1"; CInf]
    = Err (OverflowError "cannot convert float infinity to integer") ∧
  astype_int [CInt 9223372036854775808; CInt 1]
    = Ok [CInt (-9223372036854775808); CInt 1] ∧
  astype_int [CInt 18446744073709551616; CInt 1]
    = Err (OverflowError "Python int too large to convert to C long").
Proof. split_and!; by vm_compute. Qed.


(** C4, as the code has it.  [preprocess_dataset] writes to the caller's
    frame: it replaces the treatment column by its integer coercion and sets
    a column named random on the caller's own object, appended when the frame
    had none, and it passes that same object to [featurize]; every other
    column reaches [featurize] as it was.  The frame returned is the one
    [featurize] returns. *)
Theorem caller_frame_written_in_place
    (featurize : list string → list string → bool → frameM DataFrame)
    (draws : nat → bool) (data : DataFrame) (col ints : list cell) :
  getitem data "treatment" = Ok col → astype_int col = Ok ints →
  let handed := prepared draws data ints in
  preprocess_dataset featurize draws data =
    match featurize (features_of data) ["treatment"; "y_factual"] false handed with
    | (data', Ok used_df) => (data', Ok (partition used_df))
    | (data', Err e) => (data', Err e)
    end ∧
  getitem handed "treatment" = Ok ints ∧
  getitem handed "random" = Ok (randint_0_2 draws (len data)) ∧
  (∀ k, k ≠ "treatment" → k ≠ "random" → getitem handed k = getitem data k) ∧
  columns handed =
    (if decide ("random" ∈ columns data) then columns data else columns data ++ ["random"]) ∧
  ("random" ∉ columns data → handed ≠ data).
Proof.
  intros Hget Hints handed. split_and!.
  - by rewrite preprocess_dataset_unfold, Hget, Hints.
  - apply prepared_getitem_treatment.
  - eapply prepared_getitem_random; [done|]. by apply astype_int_length.
  - intros k ??. by apply prepared_getitem_other.
  - by eapply prepared_columns.
  - intros Hnin Heq. apply Hnin. rewrite <- Heq at 1. unfold handed.
    erewrite prepared_columns, decide_False by done. set_solver.
Qed.

Lemma caller_frame_written_in_place_witness :
  getitem (prepared ex_draws ex_data [CInt 1; CInt 0; CInt 1]) "random"
    = Ok (randint_0_2 ex_draws (len ex_data)).
Proof.
  exact (proj1 (proj2 (proj2
    (caller_frame_written_in_place featurize_numeric ex_draws ex_data
       [CFloat (1 # 1); CFloat (0 # 1); CFloat (1 # 1)] [CInt 1; CInt 0; CInt 1]
       eq_refl eq_refl)))).
Defined.

(** C4 as stated fails, even with a featurizer that writes nothing to the
    frame it receives: whatever the featurizer, it is called on the caller's
    frame with an integer treatment column and a fourth column, random, and
    that frame differs from the one the caller passed. *)
Lemma caller_frame_is_mutated :
  (∀ featurize : list string → list string → bool → frameM DataFrame,
     preprocess_dataset featurize ex_draws ex_data =
       match featurize ["age"] ["treatment"; "y_factual"] false ex_prepared with
       | (data', Ok used_df) => (data', Ok (partition used_df))
       | (data', Err e) => (data', Err e)
       end) ∧
  ex_prepared ≠ ex_data ∧
  ¬ (∀ (featurize : list string → list string → bool → frameM DataFrame)
       draws (data : DataFrame),
       (∀ features exclude_cols drop_first df,
          (featurize features exclude_cols drop_first df).1 = df) →
       (preprocess_dataset featurize draws data).1 = data).
Proof.
  split_and!.
  - intros featurize. by rewrite preprocess_dataset_unfold.
  - done.
  - intros Hclaim.
    specialize (Hclaim (λ _ _ _ df, (df, Ok df)) ex_draws ex_data (λ _ _ _ _, eq_refl)).
    by vm_compute in Hclaim.
Qed.







(** ** Loaders *)

Lemma ioM_bind_ok {A B} (m : ioM A) (f : A → ioM B) (out : list string) (b : B) :
  m ≫= f = (out, Ok b) →
  ∃ out1 a out2, m = (out1, Ok a) ∧ f a = (out2, Ok b) ∧ out = out1 ++ out2.
Proof.
  unfold mbind, ioM_bind. destruct m as [out1 [a|e]]; [|done].
  destruct (f a) as [out2 r] eqn:Hf. intros [= <- ->]. by exists out1, a, out2.
Qed.

Lemma io_ok {A} (r : result A) (out : list string) (a : A) :
  io r = (out, Ok a) → r = Ok a ∧ out = [].
Proof. unfold io. by intros [= <- ->]. Qed.

(** One step of a loader that went on: the statement returned. *)
Ltac io_step H :=
  apply ioM_bind_ok in H as (? & ? & ? & _ & H & _).

Lemma result_bind_ok {A B} (m : result A) (f : A → result B) (b : B) :
  m ≫= f = Ok b → ∃ a, m = Ok a ∧ f a = Ok b.
Proof. destruct m as [a|e]; [|done]. intros. by exists a. Qed.

(** C9. Given the 30 columns of the IHDP file, [synth_ihdp] returns a frame
    of exactly 27 columns, named treatment, y_factual and x1 to x25: the
    names that contain y_cfactual or mu are y_cfactual, mu0 and mu1, these
    three columns are dropped, and the others are kept with their values.
    With any other number of columns the renaming raises. *)
Theorem synth_ihdp_columns (read_csv : string → result DataFrame) (raw : DataFrame) :
  read_csv ihdp_url = Ok raw →
  (length raw = 30 →
   ∃ data, synth_ihdp read_csv = Ok data ∧
     columns data =
       ["treatment"; "y_factual"; "x1"; "x2"; "x3"; "x4"; "x5"; "x6"; "x7"; "x8"; "x9";
        "x10"; "x11"; "x12"; "x13"; "x14"; "x15"; "x16"; "x17"; "x18"; "x19"; "x20";
        "x21"; "x22"; "x23"; "x24"; "x25"] ∧
     length data = 27 ∧
     data.*2 = take 2 raw.*2 ++ drop 5 raw.*2) ∧
  (length raw ≠ 30 → synth_ihdp read_csv = Err (ValueError "Length mismatch")) ∧
  filter (λ c, Is_true (existsb (λ s, contains s c) ["y_cfactual"; "mu"]))
    (["treatment"; "y_factual"; "y_cfactual"; "mu0"; "mu1"]
       ++ ((λ i, "x" +:+ pretty i) <$> seq 1 25))
    = ["y_cfactual"; "mu0"; "mu1"].
Proof.
  intros Hread. unfold synth_ihdp. rewrite Hread; simpl. split_and!.
  - intros Hlen.
    do 30 (destruct raw as [|[? ?] raw]; [done|]).
    destruct raw; [|done]. clear. eexists. split; [vm_compute; reflexivity|].
    by vm_compute.
  - intros Hlen. unfold set_columns. by rewrite decide_False.
  - by vm_compute.
Qed.

Lemma synth_ihdp_columns_witness :
  ∃ data, synth_ihdp ex_read_csv = Ok data ∧ length data = 27.
Proof.
  destruct (proj1 (synth_ihdp_columns ex_read_csv ex_ihdp_raw eq_refl) eq_refl)
    as (data & Hdata & _ & Hlen & _).
  exact (ex_intro _ data (conj Hdata Hlen)).
Defined.

(** C10. For a rating other than pos and neg, the failed assertion is caught
    and its message is the only thing printed; the function then raises the
    unbound-local error of [url], before [gdown.download] is called when
    gdown could be imported and before the fallback message is printed when
    it could not.  No frame is returned. *)
Theorem amazon_reviews_unknown_rating (read_csv : string → result DataFrame)
    (gdown : option (string → string → result unit)) (rating : string) :
  rating ≠ "pos" → rating ≠ "neg" →
  amazon_reviews read_csv gdown rating = ([assert_message], Err (UnboundLocalError "url")).
Proof.
  intros Hpos Hneg. unfold amazon_reviews.
  rewrite bool_decide_eq_false_2
    by (rewrite !elem_of_cons; intros [?|[?|?%elem_of_nil]]; done).
  destruct gdown as [download|]; simpl; [|done].
  by rewrite !decide_False by done.
Qed.

Lemma amazon_reviews_unknown_rating_witness :
  amazon_reviews ex_read_csv ex_gdown "neutral"
    = ([assert_message], Err (UnboundLocalError "url")).
Proof.
  apply (amazon_reviews_unknown_rating ex_read_csv ex_gdown "neutral"); discriminate.
Defined.

(** ** Column types, rows and padding *)

Lemma round53_eq_0 (z : Z) : round53 z = 0%Z ↔ z = 0%Z.
Proof.
  split; [|by intros ->].
  unfold round53. cbv zeta.
  destruct (Z.log2 (Z.abs z) - 52 <=? 0)%Z eqn:Hs; [done|].
  apply Z.leb_gt in Hs.
  set (shift := (Z.log2 (Z.abs z) - 52)%Z) in *.
  assert (0 < Z.abs z)%Z as Hn.
  { destruct (decide (Z.abs z = 0)%Z) as [H0|]; [|lia].
    unfold shift in Hs. rewrite H0 in Hs. simpl in Hs. lia. }
  pose proof (Z.log2_spec _ Hn) as [Hlo _].
  assert (0 < 2 ^ shift)%Z as Hp by (apply Z.pow_pos_nonneg; lia).
  assert (2 ^ shift ≤ Z.abs z)%Z as Hle.
  { etrans; [|exact Hlo]. apply Z.pow_le_mono_r; lia. }
  assert (1 ≤ Z.abs z / 2 ^ shift)%Z as Hq.
  { apply Z.div_le_lower_bound; lia. }
  intros H. exfalso.
  apply Z.mul_eq_0 in H as [H|H]; [lia|].
  apply Z.mul_eq_0 in H as [H|H]; [|lia].
  destruct (_ || _); lia.
Qed.

(** An integer below 2^53 in absolute value is stored exactly. *)
Lemma round53_small (z : Z) : (Z.abs z < 2 ^ 53)%Z → round53 z = z.
Proof.
  intros Hz. unfold round53. cbv zeta.
  destruct (Z.log2 (Z.abs z) - 52 <=? 0)%Z eqn:Hs; [done|].
  apply Z.leb_gt in Hs.
  assert (0 < Z.abs z)%Z as Hn.
  { destruct (decide (Z.abs z = 0)%Z) as [H0|]; [|lia].
    rewrite H0 in Hs. simpl in Hs. lia. }
  apply Z.log2_lt_pow2 in Hz; lia.
Qed.

Lemma truthy_upcast_cell (c : cell) : truthy (upcast_cell c) = truthy c.
Proof.
  destruct c as [z| | | |]; simpl; try done. f_equal.
  destruct (decide (z = 0%Z)) as [->|Hz]; [done|].
  pose proof (round53_eq_0 z). lia.
Qed.

Lemma held_as_refl (c : cell) : held_as c c.
Proof. by left. Qed.

Lemma held_as_upcast_cell (c : cell) : held_as c (upcast_cell c).
Proof. by right. Qed.


Lemma held_as_truthy (a b : cell) : held_as a b → truthy b = truthy a.
Proof. intros [-> | ->]; [done|apply truthy_upcast_cell]. Qed.

(** A float, a missing value and a string are held as they are. *)
Lemma held_as_eq (a b : cell) : held_as a b → (∀ z, a ≠ CInt z) → b = a.
Proof. intros [-> | ->] Ha; [done|]. destruct a; try done. by destruct (Ha z). Qed.

Lemma length_as_series (col : list cell) : length (as_series col) = length col.
Proof. unfold as_series. destruct (dtype_of col); by rewrite ?length_fmap. Qed.


Lemma length_pad (n : nat) (col : list cell) : length (pad n col) = n `max` length col.
Proof.
  unfold pad. case_decide; [lia|].
  rewrite length_app, length_replicate.
  destruct (dtype_of col); rewrite ?length_fmap; lia.
Qed.

Lemma pad_enough (n : nat) (col : list cell) : n ≤ length col → pad n col = col.
Proof. intros Hn. unfold pad. by rewrite decide_True. Qed.

(** Padding keeps every number and fills the new rows with NaN. *)
Lemma pad_lookup (n i : nat) (col : list cell) :
  i < n → ∃ c, pad n col !! i = Some c ∧ held_as (default CNaN (col !! i)) c.
Proof.
  intros Hi. unfold pad. case_decide as Hn.
  - destruct (lookup_lt_is_Some_2 col i) as [c Hc]; [lia|].
    exists c. rewrite Hc. split; [done|apply held_as_refl].
  - destruct (decide (i < length col)) as [Hlt|Hge].
    + destruct (lookup_lt_is_Some_2 col i Hlt) as [c Hc]. rewrite Hc; simpl.
      destruct (dtype_of col);
        rewrite lookup_app_l by (by rewrite ?length_fmap);
        rewrite ?list_lookup_fmap, Hc; simpl; eexists; (split; [done|]);
        first [apply held_as_upcast_cell|apply held_as_refl].
    + rewrite (lookup_ge_None_2 col i) by lia; simpl. exists CNaN. split; [|apply held_as_refl].
      destruct (dtype_of col);
        rewrite lookup_app_r by (rewrite ?length_fmap; lia);
        apply lookup_replicate_2; rewrite ?length_fmap; lia.
Qed.



(** A row gives the value of the column at that row, as a float when the
    rows are floats. *)
Lemma row_of_getitem (df : DataFrame) (i : nat) (label : string) (col : list cell) :
  getitem df label = Ok col →
  row_of df i label =
    Ok (if float_rows df then upcast_cell (default CNaN (col !! i))
        else default CNaN (col !! i)).
Proof. unfold row_of. by intros ->. Qed.

Lemma row_of_held_as (df : DataFrame) (i : nat) (label : string) (col : list cell) :
  getitem df label = Ok col →
  ∃ v, row_of df i label = Ok v ∧ held_as (default CNaN (col !! i)) v.
Proof.
  intros Hget. rewrite (row_of_getitem _ _ _ _ Hget). eexists. split; [done|].
  destruct (float_rows df); [apply held_as_upcast_cell|apply held_as_refl].
Qed.

Lemma row_of_ok (df : DataFrame) (i : nat) (label : string) (v : cell) :
  row_of df i label = Ok v →
  ∃ col, getitem df label = Ok col ∧ held_as (default CNaN (col !! i)) v.
Proof.
  unfold row_of. destruct (getitem df label) as [col|e]; simpl; [|done].
  intros [= <-]. exists col. split; [done|].
  destruct (float_rows df); [apply held_as_upcast_cell|apply held_as_refl].
Qed.

Lemma map_rows_ok (f : (string → result cell) → result cell) (df : DataFrame)
    (rows : list nat) (values : list cell) :
  map_rows f df rows = Ok values →
  Forall2 (λ i v, f (row_of df i) = Ok v) rows values.
Proof.
  revert values. induction rows as [|i rows IH]; simpl; intros values.
  - intros [= <-]. constructor.
  - destruct (f (row_of df i)) as [v|e] eqn:Hv; simpl; [|done].
    destruct (map_rows f df rows) as [rest|e]; simpl; [|done].
    intros [= <-]. constructor; auto.
Qed.

(** What a return of [synth_acic] shows: both files were read, line 139 was
    evaluated on every row of the treatment file, and the frame is built
    from the z column, the series of these values and the covariates.  A
    treatment file without rows gives the empty series. *)
Lemma synth_acic_ok (read_csv : string → result DataFrame) (condition : Z)
    (data : DataFrame) :
  synth_acic read_csv condition = Ok data →
  ∃ covariates z_y_mu zs values,
    read_csv acic_covariates_url = Ok covariates ∧
    read_csv (acic_zymu_url condition) = Ok z_y_mu ∧
    map_rows factual_outcome z_y_mu (seq 0 (len z_y_mu)) = Ok values ∧
    getitem z_y_mu "z" = Ok zs ∧
    data = rename_column "z" "treatment"
             (concat_axis1 [[("z", zs)]; [("y_factual", as_series values)]; covariates]).
Proof.
  unfold synth_acic.
  intros (covariates & Hcov & H)%result_bind_ok.
  apply result_bind_ok in H as (z_y_mu & Hzym & H).
  apply result_bind_ok in H as (applied & Happ & H).
  apply result_bind_ok in H as (z_y_mu' & Hset & H).
  apply result_bind_ok in H as (zs & Hz & H).
  apply result_bind_ok in H as (yf & Hyf & H).
  injection H as <-.
  exists covariates, z_y_mu, zs.
  assert (∃ values,
    map_rows factual_outcome z_y_mu (seq 0 (len z_y_mu)) = Ok values ∧
    z_y_mu' = setitem z_y_mu "y_factual" (as_series values)) as (values & Hrows & ->).
  { unfold apply_axis1 in Happ. case_decide as Hlen.
    - exists []. rewrite Hlen. split; [done|].
      injection Happ as <-.
      destruct (match _ with Ok _ => _ | Err _ => _ end) as [col|df] eqn:Hprobe.
      + destruct (_ ← _; _) in Hprobe; simplify_eq. by injection Hset as <-.
      + destruct (_ ← _; _) in Hprobe; simplify_eq.
        destruct df as [|[k col] [|]]; simplify_eq/=.
        by destruct col.
    - apply result_bind_ok in Happ as (values & Hrows & [= <-]).
      injection Hset as <-. by exists values. }
  exists values. rewrite getitem_setitem_ne in Hz by done.
  rewrite getitem_setitem_eq in Hyf. injection Hyf as <-. done.
Qed.



(** [synth_acic] on files of different lengths.  A treatment file without
    rows gives a frame whose treatment and outcome are missing at every row
    of the covariates; a shorter treatment file gives float columns filled
    with NaN; a shorter covariate file has its integer column turned into
    floats and its string column filled with NaN. *)
Lemma synth_acic_examples :
  synth_acic (ex_read_files ex_acic_covariates ex_acic_no_rows) 1 =
    Ok [("treatment", [CNaN; CNaN]); ("y_factual", [CNaN; CNaN]);
        ("x_1", [CInt 3; CInt 4]); ("x_2", [CStr "A"; CStr "B"])] ∧
  synth_acic (ex_read_files ex_acic_covariates ex_acic_one_row) 1 =
    Ok [("treatment", [CFloat (1 # 1); CNaN]); ("y_factual", [CFloat (5 # 2); CNaN]);
        ("x_1", [CInt 3; CInt 4]); ("x_2", [CStr "A"; CStr "B"])] ∧
  synth_acic (ex_read_files ex_acic_one_covariate_row ex_acic_zymu) 1 =
    Ok [("treatment", [CInt 1; CInt 0]); ("y_factual", [CFloat (5 # 2); CFloat (3 # 2)]);
        ("x_1", [CFloat (3 # 1); CNaN]); ("x_2", [CStr "A"; CNaN])].
Proof. split_and!; by vm_compute. Qed.

Lemma loader_frame_has_columns (covariates : list string) (data : DataFrame) :
  loader_frame covariates data →
  "treatment" ∈ columns data ∧ "y_factual" ∈ columns data ∧
  ∀ c, c ∈ columns data → c = "treatment" ∨ c = "y_factual" ∨ c ∈ covariates.
Proof.
  unfold loader_frame. intros ->. split_and!.
  - apply list_elem_of_here.
  - apply list_elem_of_further, list_elem_of_here.
  - intros c. rewrite !elem_of_cons. tauto.
Qed.

Lemma columns_rename_column (old new : string) (df : DataFrame) :
  columns (rename_column old new df) =
  (λ c, if decide (c = old) then new else c) <$> columns df.
Proof.
  unfold rename_column, columns. rewrite <- !list_fmap_compose.
  apply list_fmap_ext. intros i [k c] _; simpl. by case_decide.
Qed.

Lemma columns_concat_axis1 (parts : list DataFrame) :
  columns (concat_axis1 parts) = columns (concat parts).
Proof. unfold concat_axis1, columns. by rewrite <- list_fmap_compose. Qed.

(** C7. Every frame a loader returns has a column named treatment, a column
    named y_factual, and otherwise covariates only: x1 to x25 for
    [synth_ihdp], the columns of the covariates file for [synth_acic], x_1 to
    x_300 for [amazon_reviews]. *)
Theorem loaders_columns (read_csv : string → result DataFrame)
    (gdown : option (string → string → result unit)) :
  (∀ data, synth_ihdp read_csv = Ok data →
     loader_frame ((λ i, "x" +:+ pretty i) <$> seq 1 25) data) ∧
  (∀ condition data, synth_acic read_csv condition = Ok data →
     ∃ covariates, read_csv acic_covariates_url = Ok covariates ∧
       loader_frame ((λ c, if decide (c = "z") then "treatment" else c) <$> columns covariates)
         data) ∧
  (∀ rating out data, amazon_reviews read_csv gdown rating = (out, Ok (Some data)) →
     loader_frame ((λ i, "x_" +:+ pretty i) <$> seq 1 300) data).
Proof.
  unfold loader_frame. split_and!.
  - intros data. unfold synth_ihdp.
    intros (raw & _ & H)%result_bind_ok.
    apply result_bind_ok in H as (named & (_ & _ & Hcols)%set_columns_ok & [= <-]).
    rewrite columns_drop_columns, Hcols. by vm_compute.
  - intros condition data (covariates & _ & zs & yf & Hcov & _ & _ & _ & ->)%synth_acic_ok.
    exists covariates. split; [done|].
    rewrite columns_rename_column, columns_concat_axis1. simpl.
    by rewrite app_nil_r.
  - intros rating out data. unfold amazon_reviews.
    intros (? & [] & ? & _ & H & _)%ioM_bind_ok.
    destruct gdown as [download|].
    + do 4 io_step H.
      apply ioM_bind_ok in H as (? & named & ? & [Hset _]%io_ok & H & _).
      injection H as _ <-. by apply set_columns_ok in Hset as (_ & _ & ->).
    + apply ioM_bind_ok in H as (? & url & ? & [? _]%io_ok & _). done.
Qed.

Lemma loaders_columns_witness :
  (∃ data, synth_ihdp ex_read_csv = Ok data ∧
     loader_frame ((λ i, "x" +:+ pretty i) <$> seq 1 25) data) ∧
  (∃ data, synth_acic ex_read_csv 1 = Ok data ∧ loader_frame ["x_1"; "x_2"] data) ∧
  (∃ out data, amazon_reviews ex_read_csv ex_gdown "pos" = (out, Ok (Some data)) ∧
     loader_frame ((λ i, "x_" +:+ pretty i) <$> seq 1 300) data).
Proof.
  destruct (loaders_columns ex_read_csv ex_gdown) as (Hihdp & Hacic & Hamazon).
  split_and!.
  - eexists. split; [vm_compute; reflexivity|]. apply Hihdp. vm_compute; reflexivity.
  - eexists. split; [vm_compute; reflexivity|].
    destruct (Hacic 1%Z _ eq_refl) as (covariates & Hcov & Hframe).
    injection Hcov as <-. exact Hframe.
  - do 2 eexists. split; [vm_compute; reflexivity|].
    eapply (Hamazon "pos" []). vm_compute; reflexivity.
Defined.

(** ** Orchestrator and selector *)

Section orchestrator_facts.
Context {dataset config model : Type}.
Variable fit : config → dataset → string → Attempt model.
Variable score : model → dataset → Z.

Lemma record_trial_fresh (table : list (string * TrialResult model)) (id : string)
    (t : TrialResult model) :
  id ∉ table.*1 → record_trial table id t = table ++ [(id, t)].
Proof. intros Hfresh. unfold record_trial. by rewrite decide_False. Qed.

Lemma run_trials_fresh (data : dataset) (cfg : config) (budget : Budget)
    (remaining : option nat) (candidate_list : list string)
    (table : list (string * TrialResult model)) :
  NoDup (table.*1 ++ candidate_list) →
  admits remaining (length candidate_list) →
  run_trials fit score data cfg budget remaining candidate_list table =
  table ++ ((λ id, (id, trial fit score data cfg budget id)) <$> candidate_list).
Proof.
  revert remaining table.
  induction candidate_list as [|id rest IH]; intros remaining table Hnodup Hadmits; simpl.
  - by rewrite app_nil_r.
  - apply NoDup_app in Hnodup as (Htable & Hfresh & [Hid Hrest]%NoDup_cons).
    assert (id ∉ table.*1) as Hnew by (intros ?; eapply Hfresh; [done|left]).
    assert (run_trials fit score data cfg budget (Nat.pred <$> remaining) rest
              (record_trial table id (trial fit score data cfg budget id)) =
            table ++ (id, trial fit score data cfg budget id)
              :: ((λ id, (id, trial fit score data cfg budget id)) <$> rest)) as Hstep.
    { rewrite record_trial_fresh by done. rewrite IH.
      - by rewrite <- app_assoc.
      - rewrite fmap_app; simpl. rewrite <- app_assoc; simpl.
        apply NoDup_app. split_and!; [done| |by constructor].
        intros x Hx [->|Hin]%elem_of_cons; [done|]. by eapply Hfresh; [|right].
      - destruct remaining as [m|]; simpl in *; [lia|done]. }
    destruct remaining as [[|m]|]; simpl in *; [lia|done..].
Qed.

Lemma better_irrefl (d : direction) (a : Z) : better d a a = false.
Proof. destruct d; simpl; lia. Qed.

Lemma scan_best_none (d : direction) (incumbent : option (string * Z))
    (table : list (string * TrialResult model)) :
  scan_best d incumbent table = None ↔
  incumbent = None ∧ Forall (λ kt, succeeded kt.2 = false) table.
Proof.
  revert incumbent. induction table as [|[id [m s|reason]] rest IH]; intros incumbent; simpl.
  - split; [by intros ->|by intros [-> _]].
  - destruct incumbent as [[id0 s0]|]; [destruct (better d s s0)|]; rewrite IH;
      (split; [by intros [? _]|]); intros [? Hall]; by inversion Hall.
  - rewrite IH. split; intros [? Hall]; (split; [done|]).
    + by constructor.
    + by inversion Hall.
Qed.

(** What the scan returns when it returns an entry: either the incumbent,
    which no success of the table beats, or the first success of the table
    that beats the incumbent and that no other success beats. *)
Lemma scan_best_some (d : direction) (incumbent : option (string * Z))
    (table : list (string * TrialResult model)) (id : string) (s : Z) :
  scan_best d incumbent table = Some (id, s) →
  (incumbent = Some (id, s) ∧
   ∀ j id' m' s', table !! j = Some (id', Succeeded m' s') → better d s' s = false) ∨
  (∃ i m, table !! i = Some (id, Succeeded m s) ∧
     (∀ id0 s0, incumbent = Some (id0, s0) → better d s s0 = true) ∧
     ∀ j id' m' s', table !! j = Some (id', Succeeded m' s') →
       better d s' s = false ∧ (s' = s → i ≤ j)).
Proof.
  revert incumbent.
  induction table as [|[id1 [m1 s1|reason]] rest IH]; intros incumbent; simpl.
  - intros ->. left. split; [done|]. intros j ???. by rewrite lookup_nil.
  - assert (∀ inc' : option (string * Z),
        scan_best d inc' rest = Some (id, s) →
        inc' = Some (id1, s1) →
        (∀ id0 s0, incumbent = Some (id0, s0) → better d s1 s0 = true) →
        ∃ i m, ((id1, Succeeded m1 s1) :: rest) !! i = Some (id, Succeeded m s) ∧
          (∀ id0 s0, incumbent = Some (id0, s0) → better d s s0 = true) ∧
          ∀ j id' m' s', ((id1, Succeeded m1 s1) :: rest) !! j = Some (id', Succeeded m' s') →
            better d s' s = false ∧ (s' = s → i ≤ j)) as Htake.
    { intros inc' Hscan -> Hbeats.
      destruct (IH _ Hscan) as [[[= -> ->] Hall]|(i & m & Hi & Hinc & Hall)].
      - exists 0, m1. split_and!; [done|done|].
        intros [|j] id' m' s'; simpl.
        + intros [= -> -> ->]. split; [apply better_irrefl|lia].
        + intros Hj. split; [by eapply Hall|lia].
      - specialize (Hinc _ _ eq_refl). exists (S i), m. split_and!; [done| |].
        + intros id0 s0 Hinc0. specialize (Hbeats _ _ Hinc0).
          destruct d; simpl in *; lia.
        + intros [|j] id' m' s'; simpl.
          * intros [= -> -> ->]. split; destruct d; simpl in *; lia.
          * intros Hj. destruct (Hall _ _ _ _ Hj). split; [done|lia]. }
    destruct incumbent as [[id0 s0]|].
    + destruct (better d s1 s0) eqn:Hb.
      * intros Hscan. right. eapply Htake; [done..|]. by intros ?? [= <- <-].
      * intros Hscan.
        destruct (IH _ Hscan) as [[[= -> ->] Hall]|(i & m & Hi & Hinc & Hall)].
        -- left. split; [done|]. intros [|j] id' m' s'; simpl.
           ++ by intros [= -> -> ->].
           ++ apply Hall.
        -- specialize (Hinc _ _ eq_refl). right. exists (S i), m. split_and!; [done| |].
           ++ by intros ?? [= <- <-].
           ++ intros [|j] id' m' s'; simpl.
              ** intros [= -> -> ->]. split; destruct d; simpl in *; lia.
              ** intros Hj. destruct (Hall _ _ _ _ Hj). split; [done|lia].
    + intros Hscan. right. eapply Htake; [done..|]. by intros.
  - intros Hscan.
    destruct (IH _ Hscan) as [[-> Hall]|(i & m & Hi & Hinc & Hall)].
    + left. split; [done|]. intros [|j] id' m' s'; simpl; [done|apply Hall].
    + right. exists (S i), m. split_and!; [done..|].
      intros [|j] id' m' s'; simpl; [done|].
      intros Hj. destruct (Hall _ _ _ _ Hj). split; [done|lia].
Qed.

Lemma filter_length_all {A} (P : A → Prop) `{!∀ x, Decision (P x)} (l : list A) :
  length (filter P l) = length l ↔ Forall P l.
Proof.
  induction l as [|x l IH]; [by split|].
  destruct (decide (P x)).
  - rewrite filter_cons_True by done. simpl. rewrite Forall_cons.
    split; [intros [= ?%IH]; by split|intros [_ ?%IH]; by f_equal].
  - rewrite filter_cons_False by done. simpl. rewrite Forall_cons.
    pose proof (length_filter P l). split; [lia|tauto].
Qed.

End orchestrator_facts.

(** C1. A run over [N] candidates with distinct identifiers, under a budget
    that lets all [N] trials run, returns a table of exactly [N] entries, the
    [i]-th being the outcome of the [i]-th candidate whether it succeeded or
    failed.  With [K] the number of failed entries, [select_best] raises
    [NoSuccessfulTrialError] exactly when [K = N]; otherwise it returns the
    identifier of a successful entry whose score no other success beats, the
    earliest one among equal scores. *)
Theorem run_tolerates_failures {dataset config model : Type}
    (fit : config → dataset → string → Attempt model) (score : model → dataset → Z)
    (d : direction) (data : dataset) (candidate_list : list string)
    (budget : Budget) (cfg : config) :
  NoDup candidate_list →
  admits (max_trials budget) (length candidate_list) →
  let rr := run fit score d data candidate_list budget cfg in
  let N := length candidate_list in
  let K := length (filter (λ kt, succeeded kt.2 = false) (trials rr)) in
  trials rr = (λ id, (id, trial fit score data cfg budget id)) <$> candidate_list ∧
  length (trials rr) = N ∧
  K ≤ N ∧
  (select_best d rr = Err NoSuccessfulTrialError ↔ K = N) ∧
  (K < N →
   ∃ i id m s,
     select_best d rr = Ok id ∧ best rr = Some id ∧
     trials rr !! i = Some (id, Succeeded m s) ∧
     ∀ j id' m' s', trials rr !! j = Some (id', Succeeded m' s') →
       better d s' s = false ∧ (s' = s → i ≤ j)).
Proof.
  intros Hnodup Hadmits rr N K.
  assert (trials rr = (λ id, (id, trial fit score data cfg budget id)) <$> candidate_list)
    as Htable.
  { unfold rr, run; simpl. by rewrite run_trials_fresh. }
  assert (length (trials rr) = N) as Hlen by (by rewrite Htable, length_fmap).
  assert (K ≤ N) as HK by (unfold K; rewrite <- Hlen; apply length_filter).
  assert (K = N ↔ scan_best d None (trials rr) = None) as Hnone.
  { unfold K. rewrite <- Hlen, filter_length_all, scan_best_none. naive_solver. }
  split_and!; [done..| |].
  - rewrite Hnone. unfold select_best.
    by destruct (scan_best d None (trials rr)) as [[id s]|].
  - intros Hlt. unfold select_best.
    assert (scan_best d None (trials rr) ≠ None) as Hsome by (rewrite <- Hnone; lia).
    destruct (scan_best d None (trials rr)) as [[id s]|] eqn:Hscan; [|done].
    destruct (scan_best_some _ _ _ _ _ Hscan) as [[[=] _]|(i & m & Hi & _ & Hall)].
    exists i, id, m, s. split_and!; [done| |done..].
    unfold rr, run in Hscan |- *; simpl in *. by rewrite Hscan.
Qed.

Lemma run_tolerates_failures_witness :
  let rr := run ex_fit ex_score LowerIsBetter ex_prepared ex_candidates ex_budget () in
  length (trials rr) = 4 ∧
  length (filter (λ kt, succeeded kt.2 = false) (trials rr)) = 2 ∧
  select_best LowerIsBetter rr = Ok "SLearner".
Proof.
  assert (NoDup ex_candidates) as Hnodup.
  { apply (bool_decide_unpack _). by vm_compute. }
  assert (admits (max_trials ex_budget) (length ex_candidates)) as Hadmits
    by (simpl; lia).
  destruct (run_tolerates_failures ex_fit ex_score LowerIsBetter ex_prepared ex_candidates
              ex_budget () Hnodup Hadmits) as (_ & Hlen & _ & _ & _).
  split_and!; [exact Hlen|by vm_compute..].
Defined.

(** * Further properties of the preprocessor *)

Lemma setitem_present (df : DataFrame) (key : string) (value : list cell) :
  key ∈ columns df →
  setitem df key value =
  (λ kc : string * list cell, if decide (kc.1 = key) then (key, value) else kc) <$> df.
Proof. intros Hin. unfold setitem. by rewrite decide_True. Qed.

Lemma setitem_setitem (df : DataFrame) (key : string) (v1 v2 : list cell) :
  setitem (setitem df key v1) key v2 = setitem df key v2.
Proof.
  destruct (decide (key ∈ columns df)) as [Hin|Hnin].
  - rewrite (setitem_present df key v1), (setitem_present df key v2) by done.
    rewrite setitem_present
      by (rewrite <- (setitem_present df key v1), columns_setitem, decide_True; done).
    rewrite <- list_fmap_compose. apply list_fmap_ext.
    intros i [k c] _; simpl. repeat (case_decide; simplify_eq/=); done.
  - unfold setitem at 2. rewrite decide_False by done.
    rewrite setitem_present by (unfold columns; rewrite fmap_app; set_solver).
    rewrite fmap_app; simpl. rewrite decide_True by done.
    unfold setitem. rewrite decide_False by done. f_equal.
    rewrite <- (list_fmap_id df) at 2. apply list_fmap_ext.
    intros i [k c] Hi; simpl. rewrite decide_False; [done|].
    intros ->. apply Hnin. apply list_elem_of_fmap. exists (key, c).
    split; [done|]. by eapply list_elem_of_lookup_2.
Qed.

Lemma setitem_comm (df : DataFrame) (k1 k2 : string) (v1 v2 : list cell) :
  k1 ≠ k2 → k1 ∈ columns df →
  setitem (setitem df k1 v1) k2 v2 = setitem (setitem df k2 v2) k1 v1.
Proof.
  intros Hne Hin. rewrite (setitem_present df k1 v1) by done.
  rewrite (setitem_present (setitem df k2 v2))
    by (rewrite columns_setitem; case_decide; set_solver).
  unfold setitem.
  assert (columns ((λ kc : string * list cell,
             if decide (kc.1 = k1) then (k1, v1) else kc) <$> df) = columns df) as ->.
  { rewrite <- (setitem_present df k1 v1) by done.
    by rewrite columns_setitem, decide_True. }
  case_decide.
  - rewrite <- !list_fmap_compose. apply list_fmap_ext.
    intros i [k c] _; simpl. repeat (case_decide; simplify_eq/=); done.
  - rewrite fmap_app; simpl. by rewrite decide_False.
Qed.

Lemma len_setitem_randint (df : DataFrame) (key : string) (draws : nat → bool) :
  df ≠ [] → len (setitem df key (randint_0_2 draws (len df))) = len df.
Proof.
  intros Hne. destruct df as [|[k c] df]; [done|].
  unfold setitem. case_decide; simpl; [|done].
  case_decide; simpl; [|done]. by rewrite randint_0_2_length.
Qed.

(** X1. Without a treatment column the call raises [KeyError] for the
    label treatment before anything is written: the caller's frame is
    returned untouched, whatever the featurizer and the draws. *)
Theorem missing_treatment_raises_KeyError
    (featurize : list string → list string → bool → frameM DataFrame)
    (draws : nat → bool) (data : DataFrame) :
  "treatment" ∉ columns data →
  preprocess_dataset featurize draws data = (data, Err (KeyError "treatment")).
Proof.
  intros Hmissing. by rewrite preprocess_dataset_unfold, getitem_missing.
Qed.

Lemma missing_treatment_raises_KeyError_witness :
  preprocess_dataset featurize_numeric ex_draws ex_no_treatment
    = (ex_no_treatment, Err (KeyError "treatment")).
Proof.
  apply missing_treatment_raises_KeyError.
  apply (bool_decide_unpack _). by vm_compute.
Defined.

(** X2. The feature list is taken before the random column is set.  Every
    feature named to [featurize] is a column of the frame it receives, with
    the values the caller's frame had (random apart); that frame always has a
    column named random, but the feature list names it only when the caller's
    frame already had one. *)
Theorem features_taken_before_random (draws : nat → bool) (data : DataFrame)
    (col ints : list cell) :
  getitem data "treatment" = Ok col → astype_int col = Ok ints →
  let handed := prepared draws data ints in
  (∀ f, f ∈ features_of data →
     f ∈ columns handed ∧ (f ≠ "random" → getitem handed f = getitem data f)) ∧
  "random" ∈ columns handed ∧
  ("random" ∈ features_of data ↔ "random" ∈ columns data).
Proof.
  intros Hget Hints handed.
  pose proof (prepared_columns draws data col ints Hget) as Hcols. fold handed in Hcols.
  split_and!.
  - intros f [Hf Hin]%list_elem_of_filter. split.
    + rewrite Hcols. case_decide; [done|]. apply elem_of_app. by left.
    + intros Hr. apply prepared_getitem_other; [|done].
      intros ->. apply Hf. by left.
  - rewrite Hcols. case_decide; [done|]. apply elem_of_app. right. by left.
  - unfold features_of. rewrite list_elem_of_filter. split; [by intros [_ ?]|].
    intros Hin. split; [|done]. by intros [?|[?|?%elem_of_nil]%elem_of_cons]%elem_of_cons.
Qed.

Lemma features_taken_before_random_witness :
  "random" ∈ columns (prepared ex_draws ex_data [CInt 1; CInt 0; CInt 1]) ∧
  ("random" ∈ features_of ex_data ↔ "random" ∈ columns ex_data).
Proof.
  exact (proj2 (features_taken_before_random ex_draws ex_data
           [CFloat (1 # 1); CFloat (0 # 1); CFloat (1 # 1)] [CInt 1; CInt 0; CInt 1]
           eq_refl eq_refl)).
Defined.

(** X3. Preprocessing once more the frame a first call has written to, when
    the featurizer of that call left the frame as it received it, adds
    nothing: the caller's frame after the first call has the integer
    treatment column, which passes the coercion unchanged, and the column
    named random, which is overwritten with the new draws, so [featurize]
    receives the very frame a first call with these draws would have given
    it.  Only the feature list differs, which now names random. *)
Theorem preprocess_again
    (featurize : list string → list string → bool → frameM DataFrame)
    (draws1 draws2 : nat → bool) (data : DataFrame) (col ints : list cell) :
  getitem data "treatment" = Ok col → astype_int col = Ok ints →
  (featurize (features_of data) ["treatment"; "y_factual"] false
     (prepared draws1 data ints)).1 = prepared draws1 data ints →
  let once := (preprocess_dataset featurize draws1 data).1 in
  once = prepared draws1 data ints ∧
  getitem once "treatment" = Ok ints ∧ astype_int ints = Ok ints ∧
  prepared draws2 once ints = prepared draws2 data ints ∧
  columns (prepared draws2 once ints) = columns once ∧
  "random" ∈ features_of once ∧
  preprocess_dataset featurize draws2 once =
    match featurize (features_of once) ["treatment"; "y_factual"] false
            (prepared draws2 data ints) with
    | (data', Ok used_df) => (data', Ok (partition used_df))
    | (data', Err e) => (data', Err e)
    end.
Proof.
  intros Hget Hints Hleft once.
  assert (once = prepared draws1 data ints) as Honce1.
  { unfold once. rewrite preprocess_dataset_unfold, Hget, Hints.
    by destruct (featurize _ _ _ _) as [data' [used_df|e]]. }
  clearbody once. subst once. clear Hleft.
  set (once := prepared draws1 data ints).
  pose proof (getitem_ok_columns _ _ _ Hget) as Hin.
  pose proof (astype_int_length _ _ Hints) as Hlen.
  set (first := setitem data "treatment" ints).
  assert ("treatment" ∈ columns first) as Hin1
    by (unfold first; rewrite columns_setitem, decide_True; done).
  assert (first ≠ []) as Hne by (intros E; rewrite E in Hin1; by apply elem_of_nil in Hin1).
  assert (len first = len data) as Hlen1 by (by eapply len_setitem).
  assert (once = setitem first "random" (randint_0_2 draws1 (len first))) as Honce by done.
  assert (setitem once "treatment" ints = once) as Hsame.
  { rewrite Honce. rewrite <- setitem_comm by done.
    unfold first. by rewrite setitem_setitem. }
  assert (prepared draws2 once ints = prepared draws2 data ints) as Heq.
  { unfold prepared at 1. simpl. rewrite Hsame.
    rewrite Honce, len_setitem_randint by done. by rewrite setitem_setitem. }
  assert ("random" ∈ columns once) as Hrandom.
  { rewrite Honce, columns_setitem. case_decide; [done|]. apply elem_of_app. right. by left. }
  split_and!.
  - done.
  - apply prepared_getitem_treatment.
  - by eapply astype_int_idem.
  - done.
  - rewrite Heq. unfold once. by rewrite !(prepared_columns _ _ col).
  - unfold features_of. apply list_elem_of_filter. split; [|done].
    by intros [?|[?|?%elem_of_nil]%elem_of_cons]%elem_of_cons.
  - rewrite preprocess_dataset_unfold.
    unfold once at 1. rewrite prepared_getitem_treatment.
    by rewrite (astype_int_idem _ _ Hints), Heq.
Qed.

Lemma preprocess_again_witness :
  (preprocess_dataset featurize_numeric ex_draws ex_data).1 = ex_prepared ∧
  prepared (λ _, false) (preprocess_dataset featurize_numeric ex_draws ex_data).1
      [CInt 1; CInt 0; CInt 1]
    = prepared (λ _, false) ex_data [CInt 1; CInt 0; CInt 1].
Proof.
  destruct (preprocess_again featurize_numeric ex_draws (λ _, false) ex_data
              [CFloat (1 # 1); CFloat (0 # 1); CFloat (1 # 1)] [CInt 1; CInt 0; CInt 1]
              eq_refl eq_refl eq_refl) as (Honce & _ & _ & Hagain & _).
  exact (conj Honce Hagain).
Defined.

(** X4. A treatment column that already holds integers of 64 bits passes
    the coercion as it is: the column named random is then the only one the
    call changes on the caller's frame. *)
Theorem integer_treatment_unchanged (draws : nat → bool) (data : DataFrame)
    (col : list cell) :
  getitem data "treatment" = Ok col → Forall is_int64 col →
  astype_int col = Ok col ∧
  ∀ k, k ≠ "random" → getitem (prepared draws data col) k = getitem data k.
Proof.
  intros Hget Hint. split; [by apply astype_int_ints|].
  intros k Hk. destruct (decide (k = "treatment")) as [->|].
  - by rewrite prepared_getitem_treatment.
  - by apply prepared_getitem_other.
Qed.

Lemma integer_treatment_unchanged_witness :
  astype_int [CInt 1; CInt 0; CInt 1] = Ok [CInt 1; CInt 0; CInt 1] ∧
  ∀ k, k ≠ "random" →
    getitem (prepared ex_draws ex_prepared [CInt 1; CInt 0; CInt 1]) k = getitem ex_prepared k.
Proof.
  apply (integer_treatment_unchanged ex_draws ex_prepared [CInt 1; CInt 0; CInt 1] eq_refl).
  repeat constructor; by eexists.
Defined.

Lemma filter_not_in_features_X (U l : list string) :
  (∀ x, x ∈ l → x ∈ U) →
  filter (λ f, f ∉ filter (λ f, f ≠ "random") U) l = filter (λ f, f = "random") l.
Proof.
  induction l as [|x l IH]; intros Hsub; [done|].
  assert (∀ y, y ∈ l → y ∈ U) as Hl by (intros y Hy; apply Hsub; by right).
  assert (x ∈ U) as Hx by (apply Hsub; by left).
  destruct (decide (x = "random")) as [->|Hne].
  - rewrite !filter_cons_True; [by rewrite IH|done|].
    by intros [? _]%list_elem_of_filter.
  - rewrite !filter_cons_False; [by rewrite IH|done|].
    intros Hnin. apply Hnin. by apply list_elem_of_filter.
Qed.

Lemma filter_eq_replicate (r : string) (l : list string) :
  filter (λ f, f = r) l = replicate (length (filter (λ f, f = r) l)) r.
Proof.
  induction l as [|x l IH]; [done|].
  destruct (decide (x = r)) as [->|].
  - rewrite filter_cons_True by done. simpl. by f_equal.
  - by rewrite filter_cons_False by done.
Qed.

(** X5. The two feature lists split the columns of the returned frame other
    than treatment and y_factual: together they are a rearrangement of these
    columns, [features_X] keeps them in the order of the frame, and
    [features_W] is the name random once per column so named. *)
Theorem features_split_used_columns
    (featurize : list string → list string → bool → frameM DataFrame)
    (draws : nat → bool) (data data' used_df : DataFrame)
    (features_X features_W targets : list string) (treatment : string) :
  preprocess_dataset featurize draws data
    = (data', Ok (used_df, features_X, features_W, targets, treatment)) →
  features_X ++ features_W ≡ₚ used_features_of used_df ∧
  features_X `sublist_of` columns used_df ∧
  features_W = replicate (length features_W) "random".
Proof.
  intros (col & ints & used & _ & _ & _ & Hr)%preprocess_dataset_ok.
  unfold partition in Hr. simplify_eq.
  assert (features_W_of used = filter (λ f, f = "random") (used_features_of used)) as HW.
  { unfold features_W_of, features_X_of. by apply filter_not_in_features_X. }
  split_and!.
  - rewrite HW. unfold features_X_of.
    rewrite <- (filter_app_complement (λ f, f ≠ "random") (used_features_of used)) at 3.
    f_equiv. erewrite list_filter_iff; [done|]. intros x.
    destruct (decide (x = "random")); naive_solver.
  - unfold features_X_of, used_features_of.
    etrans; apply sublist_filter.
  - rewrite HW. apply filter_eq_replicate.
Qed.

Lemma features_split_used_columns_witness :
  ["age"] ++ ["random"] ≡ₚ used_features_of ex_prepared ∧
  ["age"] `sublist_of` columns ex_prepared ∧
  ["random"] = replicate (length ["random"]) "random".
Proof.
  eapply (features_split_used_columns featurize_numeric ex_draws ex_data ex_prepared).
  vm_compute. reflexivity.
Defined.

(** X6. On a rectangular frame the two assignments keep the frame
    rectangular and its row count, and add at most the one column named
    random: neither assignment can hit the length check of pandas. *)
Theorem prepared_keeps_shape (draws : nat → bool) (data : DataFrame)
    (col ints : list cell) :
  rectangular data → getitem data "treatment" = Ok col → astype_int col = Ok ints →
  let handed := prepared draws data ints in
  rectangular handed ∧
  len handed = len data ∧
  length handed = (if decide ("random" ∈ columns data) then length data else S (length data)).
Proof.
  intros Hrect Hget Hints handed.
  pose proof (astype_int_length _ _ Hints) as Hlen.
  assert (len (setitem data "treatment" ints) = len data) as Hlen1 by (by eapply len_setitem).
  assert (setitem data "treatment" ints ≠ []) as Hne.
  { unfold setitem. rewrite decide_True by (by eapply getitem_ok_columns).
    destruct data; [|done]. by simpl in Hget. }
  split_and!.
  - by eapply prepared_rectangular.
  - unfold handed, prepared; simpl. by rewrite len_setitem_randint.
  - pose proof (prepared_columns draws data col ints Hget) as Hcols.
    apply (f_equal length) in Hcols. unfold columns in Hcols.
    rewrite (length_fmap fst) in Hcols. fold handed in Hcols. rewrite Hcols.
    unfold columns. case_decide; [by rewrite length_fmap|].
    rewrite length_app, length_fmap; simpl. lia.
Qed.

Lemma prepared_keeps_shape_witness :
  rectangular (prepared ex_draws ex_data [CInt 1; CInt 0; CInt 1]) ∧
  len (prepared ex_draws ex_data [CInt 1; CInt 0; CInt 1]) = len ex_data.
Proof.
  assert (rectangular ex_data) as Hrect by (repeat constructor).
  destruct (prepared_keeps_shape ex_draws ex_data
              [CFloat (1 # 1); CFloat (0 # 1); CFloat (1 # 1)] [CInt 1; CInt 0; CInt 1]
              Hrect eq_refl eq_refl) as (H1 & H2 & _).
  exact (conj H1 H2).
Defined.

(** * Further properties of the loaders *)

Lemma prefix_append (s c : string) :
  String.prefix s c = true ↔ ∃ post, c = s +:+ post.
Proof.
  revert c. induction s as [|a s IH]; intros c; simpl.
  - destruct c; (split; [intros _; by eexists|done]).
  - destruct c as [|b c]; simpl.
    + split; [done|by intros [post ?]].
    + destruct (ascii_dec a b) as [->|Hne].
      * rewrite IH. split; intros [post Hpost]; exists post; [by rewrite Hpost|].
        by injection Hpost.
      * split; [done|]. intros [post Hpost]. by injection Hpost.
Qed.

(** X7. The test [s in c] of line 99 is the substring test: it holds exactly
    when [c] is some text, then [s], then some text. *)
Theorem contains_substring (s c : string) :
  contains s c = true ↔ ∃ pre post, c = pre +:+ s +:+ post.
Proof.
  induction c as [|a c IH].
  - change (contains s "") with (String.prefix s "" || false).
    rewrite orb_false_r, prefix_append. split.
    + intros [post ->]. by exists "", post.
    + intros ([|? pre] & post & Hc); [by exists post|done].
  - change (contains s (String a c)) with (String.prefix s (String a c) || contains s c).
    rewrite orb_true_iff, prefix_append, IH. split.
    + intros [[post ->]|(pre & post & ->)]; [by exists "", post|].
      by exists (String a pre), post.
    + intros ([|b pre] & post & Hc); [left; by exists post|].
      right. injection Hc as _ ->. by exists pre, post.
Qed.

Lemma synth_ihdp_ok_columns (read_csv : string → result DataFrame) (data : DataFrame) :
  synth_ihdp read_csv = Ok data →
  columns data = "treatment" :: "y_factual" :: ((λ i, "x" +:+ pretty i) <$> seq 1 25).
Proof.
  unfold synth_ihdp. intros (raw & _ & H)%result_bind_ok.
  apply result_bind_ok in H as (named & (_ & _ & Hcols)%set_columns_ok & [= <-]).
  rewrite columns_drop_columns, Hcols. by vm_compute.
Qed.

Lemma getitem_present (df : DataFrame) (key : string) :
  key ∈ columns df → ∃ col, getitem df key = Ok col.
Proof.
  intros Hin. destruct (getitem df key) as [col|e] eqn:Hget; [by exists col|].
  induction df as [|[k c] df IH]; simpl in *; [by apply elem_of_nil in Hin|].
  case_decide; [done|]. apply IH; [|done].
  apply elem_of_cons in Hin as [?|?]; [by subst|done].
Qed.

(** X8. A frame loaded by [synth_ihdp] goes through the first lines of
    [preprocess_dataset]: the treatment column is found, with one value per
    row, no column is named random yet, and the features named to
    [featurize] are exactly x1 to x25. *)
Theorem ihdp_frame_features (read_csv : string → result DataFrame) (data : DataFrame) :
  synth_ihdp read_csv = Ok data →
  features_of data = (λ i, "x" +:+ pretty i) <$> seq 1 25 ∧
  (∃ col, getitem data "treatment" = Ok col ∧ length col = len data) ∧
  ("random" ∉ columns data).
Proof.
  intros Hcols%synth_ihdp_ok_columns. split_and!.
  - unfold features_of. rewrite Hcols. by vm_compute.
  - destruct data as [|[k col] data]; [done|]. injection Hcols as -> _.
    exists col. by simpl.
  - rewrite Hcols. apply (bool_decide_unpack _). by vm_compute.
Qed.

Lemma ihdp_frame_features_witness :
  ∃ data, synth_ihdp ex_read_csv = Ok data ∧
    features_of data = (λ i, "x" +:+ pretty i) <$> seq 1 25.
Proof.
  eexists. split; [vm_compute; reflexivity|].
  eapply ihdp_frame_features with (read_csv := ex_read_csv).
  vm_compute; reflexivity.
Defined.

Lemma getitem_err (df : DataFrame) (key : string) (e : exn) :
  getitem df key = Err e → e = KeyError key ∧ key ∉ columns df.
Proof.
  induction df as [|[k c] df IH]; simpl.
  - intros [= <-]. split; [done|]. apply not_elem_of_nil.
  - case_decide; [done|]. intros [-> ?]%IH. split; [done|].
    by apply not_elem_of_cons.
Qed.

Lemma truthy_row (df : DataFrame) (v : cell) :
  truthy (if float_rows df then upcast_cell v else v) = truthy v.
Proof. destruct (float_rows df); [apply truthy_upcast_cell|done]. Qed.

Lemma factual_outcome_ok (df : DataFrame) (i : nat) (zs ycol : list cell) :
  getitem df "z" = Ok zs → getitem df (outcome_label zs i) = Ok ycol →
  ∃ v, factual_outcome (row_of df i) = Ok v ∧ held_as (default CNaN (ycol !! i)) v.
Proof.
  intros Hz Hy. unfold factual_outcome, outcome_label in *.
  rewrite (row_of_getitem _ _ _ _ Hz); simpl. rewrite truthy_row.
  destruct (truthy (default CNaN (zs !! i))); by apply row_of_held_as.
Qed.

Lemma factual_outcome_err (df : DataFrame) (i : nat) (e : exn) :
  factual_outcome (row_of df i) = Err e →
  (("z" ∉ columns df) ∧ e = KeyError "z") ∨
  (∃ zs, getitem df "z" = Ok zs ∧
     (outcome_label zs i ∉ columns df) ∧ e = KeyError (outcome_label zs i)).
Proof.
  unfold factual_outcome, outcome_label, row_of.
  destruct (getitem df "z") as [zs|e'] eqn:Hz; simpl.
  - rewrite truthy_row. intros He. right. exists zs. split; [done|].
    destruct (truthy (default CNaN (zs !! i)));
      [destruct (getitem df "y1") as [c|e'] eqn:Hy|destruct (getitem df "y0") as [c|e'] eqn:Hy];
      simpl in He; try done; apply getitem_err in Hy as [-> ?]; by injection He as <-.
  - intros [= <-]. left. apply getitem_err in Hz as [-> ?]. done.
Qed.

Lemma map_rows_err (f : (string → result cell) → result cell) (df : DataFrame)
    (rows : list nat) (e : exn) :
  map_rows f df rows = Err e → ∃ i, i ∈ rows ∧ f (row_of df i) = Err e.
Proof.
  induction rows as [|i rows IH]; simpl; [done|].
  destruct (f (row_of df i)) as [v|e'] eqn:Hv; simpl.
  - destruct (map_rows f df rows) as [rest|e']; simpl; [done|].
    intros [= <-]. destruct IH as (j & ? & ?); [done|]. exists j. split; [by right|done].
  - intros [= <-]. exists i. split; [by left|done].
Qed.

Lemma map_rows_all (f : (string → result cell) → result cell) (df : DataFrame)
    (rows : list nat) (value : nat → cell) :
  (∀ i, i ∈ rows → f (row_of df i) = Ok (value i)) →
  map_rows f df rows = Ok (value <$> rows).
Proof.
  induction rows as [|i rows IH]; intros Hall; simpl; [done|].
  rewrite Hall by (by left); simpl. rewrite IH; [done|].
  intros j Hj. apply Hall. by right.
Qed.

Lemma synth_acic_unfold (read_csv : string → result DataFrame) (condition : Z)
    (covariates z_y_mu : DataFrame) :
  read_csv acic_covariates_url = Ok covariates →
  read_csv (acic_zymu_url condition) = Ok z_y_mu →
  len z_y_mu ≠ 0 →
  synth_acic read_csv condition =
    (values ← map_rows factual_outcome z_y_mu (seq 0 (len z_y_mu));
     z ← getitem z_y_mu "z";
     Ok (rename_column "z" "treatment"
           (concat_axis1 [[("z", z)]; [("y_factual", as_series values)]; covariates]))).
Proof.
  intros Hcov Hzym Hlen.
  unfold synth_acic, apply_axis1, setitem_value, factual_outcome, mbind, result_bind,
    mret, result_ret.
  rewrite Hcov, Hzym, decide_False by done.
  destruct (map_rows _ z_y_mu (seq 0 (len z_y_mu))) as [values|e]; [|done].
  rewrite getitem_setitem_ne by done.
  destruct (getitem z_y_mu "z") as [zs|e]; [|done].
  by rewrite getitem_setitem_eq.
Qed.

(** X9. Once both files are read and the treatment file has a row,
    [synth_acic] returns exactly when the treatment file has a column z and,
    for every row, the outcome column that row selects: y1 where z is truthy,
    y0 where it is not.  A column no row selects may be absent. *)
Theorem synth_acic_returns (read_csv : string → result DataFrame) (condition : Z)
    (covariates z_y_mu : DataFrame) :
  read_csv acic_covariates_url = Ok covariates →
  read_csv (acic_zymu_url condition) = Ok z_y_mu →
  len z_y_mu ≠ 0 →
  (is_ok (synth_acic read_csv condition) = true ↔
   ∃ zs, getitem z_y_mu "z" = Ok zs ∧
     ∀ i, i < len z_y_mu → outcome_label zs i ∈ columns z_y_mu).
Proof.
  intros Hcov Hzym Hlen. rewrite (synth_acic_unfold _ _ _ _ Hcov Hzym Hlen). split.
  - destruct (map_rows factual_outcome z_y_mu (seq 0 (len z_y_mu))) as [yf|e] eqn:Hrows;
      simpl; [|done].
    destruct (getitem z_y_mu "z") as [zs|e] eqn:Hz; simpl; [|done].
    intros _. exists zs. split; [done|]. intros i Hi.
    apply map_rows_ok in Hrows.
    destruct (Forall2_lookup_l _ _ _ i i Hrows) as (v & _ & Hv); [by apply lookup_seq_lt|].
    unfold factual_outcome, outcome_label in *.
    rewrite (row_of_getitem _ _ _ _ Hz) in Hv. simpl in Hv. rewrite truthy_row in Hv.
    destruct (truthy (default CNaN (zs !! i))); unfold row_of in Hv;
      [destruct (getitem z_y_mu "y1") eqn:Hy|destruct (getitem z_y_mu "y0") eqn:Hy];
      try done; by eapply getitem_ok_columns.
  - intros (zs & Hz & Hall).
    erewrite (map_rows_all _ _ _
      (λ i, match factual_outcome (row_of z_y_mu i) with Ok v => v | Err _ => CNaN end)).
    + simpl. by rewrite Hz.
    + intros i Hi%elem_of_seq.
      destruct (getitem_present z_y_mu (outcome_label zs i)) as [ycol Hy];
        [apply Hall; lia|].
      by destruct (factual_outcome_ok _ _ _ _ Hz Hy) as (v & -> & _).
Qed.

Lemma synth_acic_returns_witness :
  is_ok (synth_acic (ex_read_acic ex_acic_untreated) 1) = true.
Proof.
  apply (synth_acic_returns (ex_read_acic ex_acic_untreated) 1 ex_acic_covariates
           ex_acic_untreated eq_refl eq_refl); [discriminate|].
  exists [CInt 0; CInt 0]. split; [reflexivity|].
  intros [|[|i]] Hi; [apply (bool_decide_unpack _); by vm_compute..|].
  simpl in Hi. lia.
Defined.

(** X10. Once both files are read and the treatment file has a row, the
    only way [synth_acic] raises is a [KeyError] for z, y0 or y1, and the
    column so named is indeed missing from the treatment file. *)
Theorem synth_acic_raises_KeyError (read_csv : string → result DataFrame) (condition : Z)
    (covariates z_y_mu : DataFrame) (e : exn) :
  read_csv acic_covariates_url = Ok covariates →
  read_csv (acic_zymu_url condition) = Ok z_y_mu →
  len z_y_mu ≠ 0 →
  synth_acic read_csv condition = Err e →
  ∃ label, e = KeyError label ∧ (label ∉ columns z_y_mu) ∧
    (label = "z" ∨ label = "y0" ∨ label = "y1").
Proof.
  intros Hcov Hzym Hlen. rewrite (synth_acic_unfold _ _ _ _ Hcov Hzym Hlen).
  destruct (map_rows factual_outcome z_y_mu (seq 0 (len z_y_mu))) as [yf|e'] eqn:Hrows; simpl.
  - destruct (getitem z_y_mu "z") as [zs|e'] eqn:Hz; simpl; [done|].
    intros [= <-]. apply getitem_err in Hz as [-> ?]. exists "z". auto.
  - intros [= <-]. apply map_rows_err in Hrows as (i & _ & Hi).
    apply factual_outcome_err in Hi as [[? ->]|(zs & _ & ? & ->)].
    + exists "z". auto.
    + exists (outcome_label zs i). split_and!; [done..|].
      unfold outcome_label. destruct (truthy _); auto.
Qed.

Lemma synth_acic_raises_KeyError_witness :
  ∃ label, KeyError "y1" = KeyError label ∧ (label ∉ columns ex_acic_no_y1) ∧
    (label = "z" ∨ label = "y0" ∨ label = "y1").
Proof.
  apply (synth_acic_raises_KeyError (ex_read_acic ex_acic_no_y1) 1 ex_acic_covariates
           ex_acic_no_y1 (KeyError "y1") eq_refl eq_refl); [discriminate|].
  vm_compute. reflexivity.
Defined.

(** X11. The frame [synth_acic] returns has two columns more than the
    covariate file: after treatment and y_factual come the covariate columns
    in their order, each filled with NaN up to the row count of the result,
    which is the larger of the row counts of the two files.  A column that
    is filled keeps its numbers, an integer being held as the float of that
    value.  When the covariate file is rectangular and at least as long as
    the treatment file, its columns are carried over as they are. *)
Theorem synth_acic_covariates (read_csv : string → result DataFrame) (condition : Z)
    (data : DataFrame) :
  synth_acic read_csv condition = Ok data →
  ∃ covariates z_y_mu zs,
    read_csv acic_covariates_url = Ok covariates ∧
    read_csv (acic_zymu_url condition) = Ok z_y_mu ∧
    getitem z_y_mu "z" = Ok zs ∧
    length data = 2 + length covariates ∧
    len data = length zs `max` (len z_y_mu `max` len covariates) ∧
    drop 2 data =
      rename_column "z" "treatment"
        ((λ kc : string * list cell, (kc.1, pad (len data) kc.2)) <$> covariates) ∧
    (∀ j k c, covariates !! j = Some (k, c) →
       ∃ c', data !! (2 + j) = Some (if decide (k = "z") then "treatment" else k, c') ∧
         length c' = len data `max` length c ∧
         ∀ i, i < len data →
           ∃ v, c' !! i = Some v ∧ held_as (default CNaN (c !! i)) v) ∧
    (rectangular covariates → length zs ≤ len covariates → len z_y_mu ≤ len covariates →
     drop 2 data = rename_column "z" "treatment" covariates).
Proof.
  intros (covariates & z_y_mu & zs & values & Hcov & Hzym & Hrows & Hz & ->)%synth_acic_ok.
  apply map_rows_ok, Forall2_length in Hrows. rewrite length_seq in Hrows.
  exists covariates, z_y_mu, zs.
  set (n := length zs `max` (len z_y_mu `max` len covariates)).
  assert (concat_axis1 [[("z", zs)]; [("y_factual", as_series values)]; covariates] =
          ("z", pad n zs) :: ("y_factual", pad n (as_series values))
            :: ((λ kc : string * list cell, (kc.1, pad n kc.2)) <$> covariates)) as ->.
  { unfold concat_axis1; simpl. rewrite app_nil_r, length_as_series, <- Hrows.
    by replace (length zs `max` (len z_y_mu `max` (len covariates `max` 0))) with n
      by (unfold n; lia). }
  assert (len (rename_column "z" "treatment"
                 (("z", pad n zs) :: ("y_factual", pad n (as_series values))
                    :: ((λ kc : string * list cell, (kc.1, pad n kc.2)) <$> covariates)))
          = n) as Hlen.
  { simpl. rewrite length_pad. unfold n. lia. }
  split_and!; [done..| | | | |].
  - unfold rename_column. simpl. by rewrite !length_fmap.
  - by rewrite Hlen.
  - by rewrite Hlen.
  - intros j k c Hj. rewrite Hlen. exists (pad n c). split_and!.
    + unfold rename_column. rewrite !fmap_cons.
      change (2 + j) with (S (S j)). rewrite <- !lookup_tail. cbn [tail].
      rewrite !list_lookup_fmap, Hj. simpl. by case_decide.
    + apply length_pad.
    + intros i Hi. by apply pad_lookup.
  - intros Hrect Hzs Hlong.
    assert ((λ kc : string * list cell, (kc.1, pad n kc.2)) <$> covariates = covariates)
      as Hsame; [|unfold rename_column; rewrite !fmap_cons; cbn [drop]; by rewrite Hsame].
    rewrite <- (list_fmap_id covariates) at 2.
    apply list_fmap_ext. intros j [k c] Hj; simpl.
    rewrite pad_enough; [done|].
    unfold rectangular in Hrect. rewrite Forall_forall in Hrect.
    pose proof (Hrect (k, c) (list_elem_of_lookup_2 _ _ _ Hj)) as Hc. simpl in Hc.
    unfold n. lia.
Qed.

Lemma synth_acic_covariates_witness :
  ∃ data, synth_acic ex_read_csv 1 = Ok data ∧
    drop 2 data = rename_column "z" "treatment" ex_acic_covariates.
Proof.
  eexists. split; [vm_compute; reflexivity|].
  destruct (synth_acic_covariates ex_read_csv 1 _ eq_refl)
    as (covariates & z_y_mu & zs & Hcov & Hzym & Hz & _ & _ & _ & _ & Hsame).
  injection Hcov as <-. injection Hzym as <-. injection Hz as <-.
  apply Hsame; [repeat constructor|simpl; lia..].
Defined.

(** X12. The labels of the frame [synth_acic] returns are pairwise distinct
    exactly when those of the covariate file are and none of them is z,
    treatment or y_factual: a covariate named z is renamed along with the
    treatment column. *)
Theorem synth_acic_distinct_labels (read_csv : string → result DataFrame) (condition : Z)
    (covariates data : DataFrame) :
  read_csv acic_covariates_url = Ok covariates →
  synth_acic read_csv condition = Ok data →
  (NoDup (columns data) ↔
   NoDup (columns covariates) ∧
   ("z" ∉ columns covariates) ∧ ("treatment" ∉ columns covariates) ∧
   ("y_factual" ∉ columns covariates)).
Proof.
  intros Hcov (covariates' & z_y_mu & zs & yf & Hcov' & _ & _ & _ & ->)%synth_acic_ok.
  rewrite Hcov in Hcov'. injection Hcov' as <-.
  rewrite columns_rename_column, columns_concat_axis1. simpl. rewrite app_nil_r.
  set (r := λ c : string, if decide (c = "z") then "treatment" else c).
  assert (∀ l : list string, "z" ∉ l → r <$> l = l) as Hid.
  { intros l Hl. rewrite <- (list_fmap_id l) at 2. apply list_fmap_ext.
    intros i c Hi. unfold r; simpl. rewrite decide_False; [done|].
    intros ->. apply Hl. by eapply list_elem_of_lookup_2. }
  rewrite !NoDup_cons, !not_elem_of_cons. split.
  - intros ([_ Ht] & Hy & Hnd).
    assert ("z" ∉ columns covariates) as Hz.
    { intros Hz. apply Ht. apply list_elem_of_fmap. by exists "z". }
    rewrite Hid in Ht, Hy, Hnd by done. done.
  - intros (Hnd & Hz & Ht & Hy). rewrite Hid by done. done.
Qed.

Lemma synth_acic_distinct_labels_witness :
  ∃ data, synth_acic ex_read_csv 1 = Ok data ∧ NoDup (columns data).
Proof.
  eexists. split; [vm_compute; reflexivity|].
  apply (synth_acic_distinct_labels ex_read_csv 1 ex_acic_covariates _ eq_refl eq_refl).
  split_and!; apply (bool_decide_unpack _); by vm_compute.
Defined.

Lemma amazon_reviews_with_gdown (read_csv : string → result DataFrame)
    (download : string → string → result unit) (rating : string) :
  rating = "pos" ∨ rating = "neg" →
  amazon_reviews read_csv (Some download) rating =
    ([], _ ← download (amazon_url rating) (amazon_file rating);
         raw ← read_csv (amazon_file rating);
         dropped ← take_positions (columns raw) [2; 3; 4];
         df ← set_columns (drop_columns raw dropped) amazon_labels;
         Ok (Some df)).
Proof.
  intros Hrating.
  assert (amazon_url rating =
          default "" (if decide (rating = "pos")
            then Some "https://drive.google.com/file/d/167CYEnYinePTNtKpVpsg0BVkoTwOwQfK/view?usp=sharing"
            else if decide (rating = "neg")
            then Some "https://drive.google.com/file/d/1b-MPNqxCyWSJE5uyn5-VJUwC8056HM8u/view?usp=sharing"
            else None)) as Hurl.
  { unfold amazon_url. destruct Hrating as [-> | ->]; by repeat case_decide. }
  unfold amazon_reviews.
  rewrite bool_decide_eq_true_2
    by (destruct Hrating as [-> | ->]; [left|right; left]).
  rewrite Hurl. unfold amazon_file, amazon_labels.
  destruct (decide (rating = "pos")); [|rewrite decide_True by (by destruct Hrating)];
    unfold try_except_AssertionError, assert, io, local, mbind, ioM_bind, result_bind,
      mret, ioM_ret; cbv beta iota zeta;
    (destruct (download _ _) as [[]|?]; [|done]);
    (destruct (read_csv _) as [raw|?]; [|done]);
    (destruct (take_positions _ _) as [dropped|?]; [|done]);
    by destruct (set_columns _ _) as [df|?].
Qed.

Lemma amazon_reviews_invalid (read_csv : string → result DataFrame)
    (gdown : option (string → string → result unit)) (rating : string) :
  ¬ (rating = "pos" ∨ rating = "neg") →
  amazon_reviews read_csv gdown rating = ([assert_message], Err (UnboundLocalError "url")).
Proof.
  intros Hrating. unfold amazon_reviews.
  rewrite bool_decide_eq_false_2
    by (rewrite !elem_of_cons; intros [?|[?|?%elem_of_nil]]; tauto).
  destruct gdown as [download|]; [|done].
  rewrite !decide_False by tauto. done.
Qed.

(** X13. Without gdown [amazon_reviews] raises for every rating, pos and neg
    included: no branch has assigned [url] when the fallback message is
    built, so the message is never printed and nothing is returned. *)
Theorem amazon_reviews_without_gdown (read_csv : string → result DataFrame)
    (rating : string) :
  amazon_reviews read_csv None rating =
    (if bool_decide (rating ∈ ["pos"; "neg"]) then [] else [assert_message],
     Err (UnboundLocalError "url")).
Proof. unfold amazon_reviews. by case_bool_decide. Qed.

(** X14. Whatever the rating, the environment and the outcome, the only
    line [amazon_reviews] can print is the message of the failed assertion,
    and it prints it exactly when the rating is neither pos nor neg. *)
Theorem amazon_reviews_output (read_csv : string → result DataFrame)
    (gdown : option (string → string → result unit)) (rating : string) :
  (amazon_reviews read_csv gdown rating).1 =
    if bool_decide (rating ∈ ["pos"; "neg"]) then [] else [assert_message].
Proof.
  case_bool_decide as Hvalid.
  - destruct gdown as [download|].
    + rewrite amazon_reviews_with_gdown; [done|].
      by apply elem_of_cons in Hvalid as [?|[?|?%elem_of_nil]%elem_of_cons]; [left|right|].
    + unfold amazon_reviews. by rewrite bool_decide_eq_true_2.
  - rewrite amazon_reviews_invalid; [done|].
    intros [-> | ->]; apply Hvalid; [left|right; left].
Qed.

(** X15. When [amazon_reviews] returns, gdown was imported, the rating is
    pos or neg, nothing was printed and the value is a frame: the function
    never returns without a frame. *)
Theorem amazon_reviews_returns_frame (read_csv : string → result DataFrame)
    (gdown : option (string → string → result unit)) (rating : string)
    (out : list string) (value : option DataFrame) :
  amazon_reviews read_csv gdown rating = (out, Ok value) →
  out = [] ∧ (rating = "pos" ∨ rating = "neg") ∧
  ∃ download raw data,
    gdown = Some download ∧ read_csv (amazon_file rating) = Ok raw ∧
    value = Some data ∧ length data = 302.
Proof.
  destruct (decide (rating = "pos" ∨ rating = "neg")) as [Hvalid|Hinvalid];
    [|by rewrite amazon_reviews_invalid].
  destruct gdown as [download|].
  - rewrite amazon_reviews_with_gdown by done. intros [= <- H].
    apply result_bind_ok in H as ([] & _ & H).
    apply result_bind_ok in H as (raw & Hraw & H).
    apply result_bind_ok in H as (dropped & _ & H).
    apply result_bind_ok in H as (data & (Hlen & -> & _)%set_columns_ok & [= <-]).
    split_and!; [done..|].
    exists download, raw, (zip amazon_labels (drop_columns raw dropped).*2).
    split_and!; [done..|].
    rewrite length_zip, length_fmap, <- Hlen. by vm_compute.
  - unfold amazon_reviews. by case_bool_decide.
Qed.

Lemma amazon_reviews_returns_frame_witness :
  ∃ download raw data,
    ex_gdown = Some download ∧ ex_read_csv (amazon_file "pos") = Ok raw ∧
    Some (zip amazon_labels (take 2 ex_amazon_raw.*2 ++ drop 5 ex_amazon_raw.*2)) = Some data ∧
    length data = 302.
Proof.
  eapply (λ H, proj2 (proj2
    (amazon_reviews_returns_frame ex_read_csv ex_gdown "pos" [] _ H))).
  vm_compute. reflexivity.
Defined.

Lemma filter_all {A} (P : A → Prop) `{!∀ x, Decision (P x)} (l : list A) :
  Forall P l → filter P l = l.
Proof.
  induction 1 as [|x l Hx _ IH]; [done|]. rewrite filter_cons_True by done. by f_equal.
Qed.

Lemma drop_positions_2_3_4 (raw : DataFrame) :
  NoDup (columns raw) → 5 ≤ length raw →
  ∃ dropped, take_positions (columns raw) [2; 3; 4] = Ok dropped ∧
    drop_columns raw dropped = take 2 raw ++ drop 5 raw.
Proof.
  intros Hnodup Hlen.
  destruct raw as [|[k0 c0] [|[k1 c1] [|[k2 c2] [|[k3 c3] [|[k4 c4] rest]]]]];
    simpl in Hlen; try lia.
  exists [k2; k3; k4]. split; [done|].
  unfold columns in Hnodup. rewrite !fmap_cons in Hnodup. simpl in Hnodup.
  apply NoDup_cons in Hnodup as [H0 Hnodup]. apply NoDup_cons in Hnodup as [H1 Hnodup].
  apply NoDup_cons in Hnodup as [H2 Hnodup]. apply NoDup_cons in Hnodup as [H3 Hnodup].
  apply NoDup_cons in Hnodup as [H4 Hnodup].
  unfold drop_columns.
  rewrite (filter_cons_True _ (k0, c0)) by (simpl; set_solver).
  rewrite (filter_cons_True _ (k1, c1)) by (simpl; set_solver).
  rewrite (filter_cons_False _ (k2, c2)) by (simpl; set_solver).
  rewrite (filter_cons_False _ (k3, c3)) by (simpl; set_solver).
  rewrite (filter_cons_False _ (k4, c4)) by (simpl; set_solver).
  simpl. do 2 f_equal. apply filter_all, Forall_forall. intros [k c] Hin; simpl.
  assert (k ∈ rest.*1) as Hk by (apply list_elem_of_fmap; by exists (k, c)).
  set_solver.
Qed.

(** X16. With gdown, a rating of pos or neg, a download that succeeds and a
    file whose column labels are distinct, [amazon_reviews] prints nothing
    and its outcome depends on the width of the file alone: [IndexError]
    when it has fewer than 5 columns, a frame when it has exactly 305, the
    [ValueError] of the renaming otherwise.  The frame holds the values of
    the file without its third, fourth and fifth columns, under the labels
    treatment, y_factual and x_1 to x_300. *)
Theorem amazon_reviews_by_width (read_csv : string → result DataFrame)
    (download : string → string → result unit) (rating : string) (raw : DataFrame) :
  rating = "pos" ∨ rating = "neg" →
  download (amazon_url rating) (amazon_file rating) = Ok () →
  read_csv (amazon_file rating) = Ok raw →
  NoDup (columns raw) →
  amazon_reviews read_csv (Some download) rating =
    ([], if decide (length raw < 5) then Err IndexError
         else if decide (length raw = 305)
         then Ok (Some (zip amazon_labels (take 2 raw.*2 ++ drop 5 raw.*2)))
         else Err (ValueError "Length mismatch")).
Proof.
  intros Hrating Hdownload Hread Hnodup.
  rewrite amazon_reviews_with_gdown by done. rewrite Hdownload, Hread. f_equal.
  unfold mbind, result_bind. case_decide as Hshort.
  - destruct raw as [|? [|? [|? [|? [|? ?]]]]]; simpl in Hshort; try lia; done.
  - destruct (drop_positions_2_3_4 raw Hnodup) as (dropped & -> & ->); [lia|].
    assert (length amazon_labels = 302) as Hlabels by (by vm_compute).
    unfold set_columns. rewrite Hlabels, length_app, length_take, length_drop.
    rewrite fmap_app, fmap_take, fmap_drop.
    case_decide; case_decide; try lia; done.
Qed.

Lemma amazon_reviews_by_width_witness :
  amazon_reviews ex_read_csv ex_gdown "pos" =
    ([], Ok (Some (zip amazon_labels (take 2 ex_amazon_raw.*2 ++ drop 5 ex_amazon_raw.*2)))).
Proof.
  assert (NoDup (columns ex_amazon_raw)) as Hnodup
    by (apply (bool_decide_unpack _); by vm_compute).
  exact (amazon_reviews_by_width ex_read_csv (λ _ _, Ok ()) "pos" ex_amazon_raw
           (or_introl eq_refl) eq_refl eq_refl Hnodup).
Defined.

Lemma filter_ext_in {A} (P Q : A → Prop) `{!∀ x, Decision (P x)} `{!∀ x, Decision (Q x)}
    (l : list A) :
  (∀ x, x ∈ l → P x ↔ Q x) → filter P l = filter Q l.
Proof.
  induction l as [|x l IH]; intros Hext; [done|].
  assert (filter P l = filter Q l) as Hl by (apply IH; intros y Hy; apply Hext; by right).
  destruct (decide (P x)) as [HP|HP].
  - rewrite !filter_cons_True; [by f_equal|by apply Hext; [left|]|done].
  - rewrite !filter_cons_False; [done| |done]. intros HQ. apply HP, Hext; [by left|done].
Qed.

(** X17. [preprocess_dataset] never looks for the outcome column: a frame
    without y_factual whose treatment column converts goes through both
    assignments and reaches [featurize], still without that column, and with
    every column but treatment named as a feature. *)
Theorem outcome_column_not_checked
    (featurize : list string → list string → bool → frameM DataFrame)
    (draws : nat → bool) (data : DataFrame) (col ints : list cell) :
  "y_factual" ∉ columns data →
  getitem data "treatment" = Ok col → astype_int col = Ok ints →
  preprocess_dataset featurize draws data =
    match featurize (features_of data) ["treatment"; "y_factual"] false
            (prepared draws data ints) with
    | (data', Ok used_df) => (data', Ok (partition used_df))
    | (data', Err e) => (data', Err e)
    end ∧
  ("y_factual" ∉ columns (prepared draws data ints)) ∧
  features_of data = filter (λ c, c ≠ "treatment") (columns data).
Proof.
  intros Hy Hget Hints. split_and!.
  - by rewrite preprocess_dataset_unfold, Hget, Hints.
  - rewrite (prepared_columns _ _ col) by done. case_decide; [done|].
    rewrite not_elem_of_app. split; [done|].
    apply not_elem_of_cons. split; [done|apply not_elem_of_nil].
  - unfold features_of. apply filter_ext_in.
    intros c Hc. rewrite !not_elem_of_cons. split; [by intros [? _]|].
    intros ?. split_and!; [done| |apply not_elem_of_nil]. by intros ->.
Qed.

Lemma outcome_column_not_checked_witness :
  "y_factual" ∉ columns (prepared ex_draws ex_no_outcome [CInt 1; CInt 0]).
Proof.
  refine (proj1 (proj2 (outcome_column_not_checked featurize_numeric ex_draws ex_no_outcome
            [CInt 1; CInt 0] [CInt 1; CInt 0] _ eq_refl eq_refl))).
  apply (bool_decide_unpack _). by vm_compute.
Defined.

Lemma amazon_reviews_ok_columns (read_csv : string → result DataFrame)
    (gdown : option (string → string → result unit)) (rating : string)
    (out : list string) (data : DataFrame) :
  amazon_reviews read_csv gdown rating = (out, Ok (Some data)) →
  columns data = amazon_labels.
Proof.
  destruct (decide (rating = "pos" ∨ rating = "neg")) as [Hvalid|Hinvalid];
    [|by rewrite amazon_reviews_invalid].
  destruct gdown as [download|]; [|unfold amazon_reviews; by case_bool_decide].
  rewrite amazon_reviews_with_gdown by done. intros [= <- H].
  apply result_bind_ok in H as ([] & _ & H).
  apply result_bind_ok in H as (raw & _ & H).
  apply result_bind_ok in H as (dropped & _ & H).
  by apply result_bind_ok in H as (df & (_ & _ & Hcols)%set_columns_ok & [= <-]).
Qed.

(** X19. A frame returned by [amazon_reviews] goes through the first lines
    of [preprocess_dataset]: the treatment column is found, with one value
    per row, no column is named random yet, and the features named to
    [featurize] are exactly x_1 to x_300. *)
Theorem amazon_frame_features (read_csv : string → result DataFrame)
    (gdown : option (string → string → result unit)) (rating : string)
    (out : list string) (data : DataFrame) :
  amazon_reviews read_csv gdown rating = (out, Ok (Some data)) →
  features_of data = (λ i, "x_" +:+ pretty i) <$> seq 1 300 ∧
  (∃ col, getitem data "treatment" = Ok col ∧ length col = len data) ∧
  ("random" ∉ columns data).
Proof.
  intros Hcols%amazon_reviews_ok_columns. split_and!.
  - unfold features_of. rewrite Hcols. by vm_compute.
  - destruct data as [|[k col] data]; [done|]. injection Hcols as -> _.
    exists col. by simpl.
  - rewrite Hcols. apply (bool_decide_unpack _). by vm_compute.
Qed.

Lemma amazon_frame_features_witness :
  features_of (zip amazon_labels (take 2 ex_amazon_raw.*2 ++ drop 5 ex_amazon_raw.*2))
    = (λ i, "x_" +:+ pretty i) <$> seq 1 300.
Proof.
  eapply (amazon_frame_features ex_read_csv ex_gdown "pos" []).
  vm_compute. reflexivity.
Defined.
